(** * foundation-core: schema-validated execution wrappers

    A shallow embedding of the TypeScript sources
      - Helper/OptionalFieldStripperHelper.ts
      - Action/ZodSchemaValidatedAction.ts
      - Service/ZodSchemaValidatedService.ts
      - Tool/ActionTool.ts, Tool/ServiceTool.ts
      - Interface/ServiceInterface.ts, Interface/ActionInterface.ts
      - Type/Response.ts
    together with the properties stated about them.

    The schema engine (zod) is an external library.  The wrappers only use
    four of its operations ([safeParse], [shape] and the two [instanceof]
    tests), so the embedding is generic in a class [ZodSchema] offering
    exactly these.  [MiniZod] is an instance covering the fragment of zod
    the test-suite exercises; it provides the concrete schemas at which the
    general theorems are instantiated. *)

From stdpp Require Import gmap strings list fin_maps pretty.

#[local] Set Warnings "-register-all".
#[local] Open Scope string_scope.
#[local] Open Scope list_scope.

(** ** JavaScript values *)

(** The values that flow through the wrappers: JSON-like data plus
    [undefined].  Numbers are restricted to integers.  An object is its
    finite map of own enumerable properties. *)
Inductive Value : Type :=
| VUndefined
| VNull
| VBoolean (b : bool)
| VNumber (n : Z)
| VString (s : string)
| VArray (items : list Value)
| VObject (fields : gmap string Value).

(** What [throw]/a rejected promise carries: the [TypeError] raised by the
    runtime, or whatever a wrapped unit rejects with. *)
Inductive JsError : Type :=
| TypeError
| Rejection (reason : Value).

(** Outcome of evaluating a piece of code: a value, or an exception. *)
Inductive Completion (A : Type) : Type :=
| Normal (a : A)
| Throw (e : JsError).
Arguments Normal {A} a.
Arguments Throw {A} e.

(** Property read [o[key]]: [undefined] when the property is absent. *)
Definition getProp (o : gmap string Value) (key : string) : Value :=
  default VUndefined (o !! key).

(** [v === ''] *)
Definition strictEqEmptyString (v : Value) : bool :=
  match v with
  | VString s => bool_decide (s = "")
  | _ => false
  end.

(** Property names ["0"], ["1"], ... paired with the elements of an array. *)
Fixpoint indexed {A : Type} (i : N) (l : list A) : list (string * A) :=
  match l with
  | [] => []
  | x :: l' => (pretty i, x) :: indexed (N.succ i) l'
  end.

(** The characters of a string, each as a one-character string value. *)
Fixpoint characters (s : string) : list Value :=
  match s with
  | EmptyString => []
  | String c s' => VString (String c EmptyString) :: characters s'
  end.

(** Object spread [{ ...v }]: the own enumerable properties of [v].  For an
    object these are its fields, for an array and a string the indexed
    elements, for every other primitive there are none. *)
Definition spread (v : Value) : gmap string Value :=
  match v with
  | VObject fields => fields
  | VArray items => list_to_map (indexed 0 items)
  | VString s => list_to_map (indexed 0 (characters s))
  | _ => ∅
  end.

(** ** Effects: state of the wrapped unit and exceptions *)

(** A computation that may change the state [St] of the outside world (the
    wrapped unit's own state) and completes normally or by throwing.  An
    [async] function is such a computation: [await] is sequencing, a
    rejected promise is [Throw]. *)
Definition M (St A : Type) : Type := St → Completion A * St.

Definition ret {St A : Type} (a : A) : M St A :=
  λ s, (Normal a, s).

Definition bind {St A B : Type} (m : M St A) (k : A → M St B) : M St B :=
  λ s, match m s with
       | (Normal a, s') => k a s'
       | (Throw e, s') => (Throw e, s')
       end.

(** A synchronous call that may throw, made inside an [async] function. *)
Definition lift {St A : Type} (c : Completion A) : M St A :=
  λ s, (c, s).

Declare Scope js_scope.
Delimit Scope js_scope with js.
Notation "'let!' x ':=' m 'in' k" := (bind m (λ x, k))
  (at level 10, x name, m at level 100, k at level 200,
   format "'[v' 'let!'  x  ':='  m  'in' '/' k ']'") : js_scope.
#[local] Open Scope js_scope.

(** ** The schema engine, as far as the wrappers use it *)

(** An element of [issue.path]: a property name or an array index. *)
Inductive PathSegment : Type :=
| PKey (key : string)
| PIndex (index : N).

(** [String(seg)], as [Array.prototype.join] converts each element. *)
Definition pathSegmentToString (seg : PathSegment) : string :=
  match seg with
  | PKey key => key
  | PIndex index => pretty index
  end.

(** [path.join(sep)] *)
Definition join (sep : string) (path : list PathSegment) : string :=
  String.concat sep (pathSegmentToString <$> path).

(** A [ZodIssue], reduced to the two fields the wrappers read. *)
Record ZodIssue : Type := {
  message : string;
  path : list PathSegment;
}.

(** [SafeParseReturnType]: [{success: true, data}] or
    [{success: false, error}], the error given by its list [error.errors]
    of issues. *)
Inductive SafeParseReturnType : Type :=
| SafeParseSuccess (data : Value)
| SafeParseError (errors : list ZodIssue).

(** The operations of a zod schema that the sources call.
    - [safeParse schema value] is [schema.safeParse(value)];
    - [shape schema] is [schema.shape]: the declared fields of an object
      schema in declaration order, and [None] (the property is [undefined])
      for every other schema;
    - [instanceofZodOptional], [instanceofZodNullable] are the two
      [instanceof] tests on a field schema. *)
Class ZodSchema (Schema : Type) : Type := {
  safeParse : Schema → Value → SafeParseReturnType;
  shape : Schema → option (list (string * Schema));
  instanceofZodOptional : Schema → bool;
  instanceofZodNullable : Schema → bool;
}.

(** ** Type/Response.ts *)

Record TypeMessage : Type := {
  code : string;
  text : string;
}.

(** [messages?] and [data?] are optional properties: [None] is an absent
    property, [Some VUndefined] a property holding [undefined]. *)
Record TypeResponse : Type := {
  success : bool;
  messages : option (list TypeMessage);
  data : option Value;
}.

(** Property read [response.data]. *)
Definition getData (response : TypeResponse) : Value :=
  default VUndefined (data response).

(** Assignment [response.data = value]; the other properties are kept. *)
Definition setData (response : TypeResponse) (value : Value) : TypeResponse :=
  {| success := success response;
     messages := messages response;
     data := Some value |}.

(** Modelled from the spec: src/Type/ErrorCode.ts is not among the sources.
    The spec names the one code the wrappers produce VALIDATION_ERROR; the
    string behind [EnumErrorCode.VALIDATION_ERROR] is taken to be that
    name.  No statement below depends on the string itself. *)
Definition VALIDATION_ERROR : string := "VALIDATION_ERROR".

(** ** Interface/ServiceInterface.ts, Interface/ActionInterface.ts *)

(** A unit of business logic: one asynchronous operation [execute]. *)
Record ServiceInterface (St TypePayload TypeResponse : Type) : Type := {
  execute : TypePayload → M St TypeResponse;
}.
Arguments execute {St TypePayload TypeResponse} _ _ _.

(** [ActionInterface<P, O> extends ServiceInterface<P, TypeResponse<O>>] *)
Abbreviation ActionInterface St := (ServiceInterface St Value TypeResponse).

(** ** Helper/OptionalFieldStripperHelper.ts *)

Module OptionalFieldStripperHelper.
Section WithSchema.
Context {Schema : Type} `{ZodSchema Schema}.

(** The body of the [forEach] callback, acting on the local object
    [cleanedData]. *)
Definition forEachEntry (cleanedData : gmap string Value)
    (entry : string * Schema) : gmap string Value :=
  let '(key, schemaField) := entry in
  if instanceofZodOptional schemaField || instanceofZodNullable schemaField
  then
    if strictEqEmptyString (getProp cleanedData key)
    then <[key := VUndefined]> cleanedData
    else cleanedData
  else cleanedData.

(** [stripEmptyStrings(data, schema)] on values.  [Object.entries] throws
    a [TypeError] when [schema.shape] is [undefined]. *)
Definition stripEmptyStrings (data : Value) (schema : Schema)
    : Completion (gmap string Value) :=
  let cleanedData := spread data in
  match shape schema with
  | None => Throw TypeError
  | Some entries => Normal (fold_left forEachEntry entries cleanedData)
  end.

(** The same function on a store of objects, where the argument [data] is a
    reference and writes are visible through every alias.  The spread
    allocates a new object [cleanedData]; the callback reads and writes
    properties of that object. *)
Definition forEachEntryAt (cleanedData : positive)
    (heap : gmap positive (gmap string Value))
    (entry : string * Schema) : gmap positive (gmap string Value) :=
  let '(key, schemaField) := entry in
  if instanceofZodOptional schemaField || instanceofZodNullable schemaField
  then
    if strictEqEmptyString (getProp (heap !!! cleanedData) key)
    then alter (λ o, <[key := VUndefined]> o) cleanedData heap
    else heap
  else heap.

Definition stripEmptyStringsAt (heap : gmap positive (gmap string Value))
    (data : positive) (schema : Schema)
    : Completion positive * gmap positive (gmap string Value) :=
  let cleanedData := fresh (dom heap) in
  let heap1 := <[cleanedData := heap !!! data]> heap in
  match shape schema with
  | None => (Throw TypeError, heap1)
  | Some entries =>
      (Normal cleanedData, fold_left (forEachEntryAt cleanedData) entries heap1)
  end.

End WithSchema.
End OptionalFieldStripperHelper.

(** ** Action/ZodSchemaValidatedAction.ts *)

Module ZodSchemaValidatedAction.
Section WithSchema.
Context {Schema : Type} `{ZodSchema Schema} {St : Type}.

Record t : Type := new {
  payloadSchema : Schema;
  objectSchema : Schema;
  action : ActionInterface St;
}.

(** The arrow function mapped over [error.errors] at both failure sites:
    [{code: VALIDATION_ERROR, text: `${message} (at ${path.join('.')})`}]. *)
Definition errorToMessage (error : ZodIssue) : TypeMessage :=
  {| code := VALIDATION_ERROR;
     text := message error +:+ " (at " +:+ join "." (path error) +:+ ")" |}.

Definition execute (this : t) (payload : Value) : M St TypeResponse :=
  let! cleaned := lift (OptionalFieldStripperHelper.stripEmptyStrings
                          payload (payloadSchema this)) in
  match safeParse (payloadSchema this) (VObject cleaned) with
  | SafeParseError errors =>
      ret {| success := false;
             messages := Some (errorToMessage <$> errors);
             data := None |}
  | SafeParseSuccess parsedPayload =>
      let! response := execute (action this) parsedPayload in
      match safeParse (objectSchema this) (getData response) with
      | SafeParseError errors =>
          ret {| success := false;
                 messages := Some (errorToMessage <$> errors);
                 data := None |}
      | SafeParseSuccess validated =>
          ret (setData response validated)
      end
  end.

End WithSchema.
Arguments t Schema St : clear implicits.
End ZodSchemaValidatedAction.

(** ** Service/ZodSchemaValidatedService.ts *)

Module ZodSchemaValidatedService.
Section WithSchema.
Context {Schema : Type} `{ZodSchema Schema} {St : Type}.

Record t : Type := new {
  payloadSchema : Schema;
  responseSchema : Schema;
  service : ServiceInterface St Value Value;
}.

Definition execute (this : t) (payload : Value) : M St SafeParseReturnType :=
  match safeParse (payloadSchema this) payload with
  | SafeParseError _ as parsedPayload => ret parsedPayload
  | SafeParseSuccess parsedPayload =>
      let! response := execute (service this) parsedPayload in
      ret (safeParse (responseSchema this) response)
  end.

End WithSchema.
Arguments t Schema St : clear implicits.
End ZodSchemaValidatedService.

(** ** Tool/ActionTool.ts, Tool/ServiceTool.ts *)

Module ActionTool.
Section WithSchema.
Context {Schema : Type} `{ZodSchema Schema} {St : Type}.

(** [class ActionTool extends ZodSchemaValidatedAction]: the inherited part
    [super] and the three own fields. *)
Record t : Type := mk {
  super : ZodSchemaValidatedAction.t Schema St;
  name : string;
  description : string;
  parameters : Schema;
}.

(** The constructor: [super(payloadSchema, responseSchema, action)], then
    the three assignments. *)
Definition new (name description : string)
    (payloadSchema responseSchema : Schema)
    (action : ActionInterface St) : t :=
  {| super := ZodSchemaValidatedAction.new payloadSchema responseSchema action;
     name := name;
     description := description;
     parameters := payloadSchema |}.

(** [execute] is not overridden: the call resolves to the inherited one. *)
Definition execute (this : t) : Value → M St TypeResponse :=
  ZodSchemaValidatedAction.execute (super this).

End WithSchema.
Arguments t Schema St : clear implicits.
End ActionTool.

Module ServiceTool.
Section WithSchema.
Context {Schema : Type} `{ZodSchema Schema} {St : Type}.

(** [class ServiceTool extends ZodSchemaValidatedService] *)
Record t : Type := mk {
  super : ZodSchemaValidatedService.t Schema St;
  name : string;
  description : string;
  parameters : Schema;
}.

Definition new (name description : string)
    (payloadSchema responseSchema : Schema)
    (service : ServiceInterface St Value Value) : t :=
  {| super :=
       ZodSchemaValidatedService.new payloadSchema responseSchema service;
     name := name;
     description := description;
     parameters := payloadSchema |}.

Definition execute (this : t) : Value → M St SafeParseReturnType :=
  ZodSchemaValidatedService.execute (super this).

End WithSchema.
Arguments t Schema St : clear implicits.
End ServiceTool.

(** ** A recording stub for wrapped units *)

(** [spy unit] behaves as [unit] and appends every payload it is invoked
    with to a log kept next to the unit's own state.  The log of a run
    tells whether, how often and with what the unit was invoked. *)
Definition spy {St P R : Type} (unit : ServiceInterface St P R)
    : ServiceInterface (St * list P) P R :=
  {| execute payload :=
       λ '(s, log),
         let '(completion, s') := execute unit payload s in
         (completion, (s', log ++ [payload])) |}.

(** ** MiniZod: a fragment of zod *)

(** The fragment covers [z.string()], [z.number()], [z.boolean()],
    [.optional()], [.nullable()] and [z.object(shape)] in its default mode
    [strip] and in [.passthrough()] mode, with zod's default error map.  It
    follows zod 3's [_parse] methods: an object schema parses every declared
    field in declaration order at [path ++ [key]], collects the issues of
    all fields, and on success builds the result from the parsed fields
    (a field is set when its parsed value is not [undefined] or the key is
    in the input), followed in passthrough mode by the undeclared keys of
    the input. *)
Module MiniZod.

Inductive UnknownKeysParam : Type :=
| passthrough
| strip.

Inductive ZodType : Type :=
| ZodString
| ZodNumber
| ZodBoolean
| ZodOptional (innerType : ZodType)
| ZodNullable (innerType : ZodType)
| ZodObject (shape : list (string * ZodType)) (unknownKeys : UnknownKeysParam).

(** [getParsedType], as the name printed in messages. *)
Definition getParsedType (input : Value) : string :=
  match input with
  | VUndefined => "undefined"
  | VNull => "null"
  | VBoolean _ => "boolean"
  | VNumber _ => "number"
  | VString _ => "string"
  | VArray _ => "array"
  | VObject _ => "object"
  end.

(** The [invalid_type] issue under the default error map: [Required] when
    the input is [undefined], else [Expected <type>, received <type>]. *)
Definition invalid_type (expected : string) (input : Value)
    (path : list PathSegment) : ZodIssue :=
  {| message :=
       match input with
       | VUndefined => "Required"
       | _ => "Expected " +:+ expected +:+ ", received " +:+ getParsedType input
       end;
     path := path |}.

(** One parsed field of an object: its key, the result of its validator and
    whether the key is in the input ([alwaysSet]). *)
Record ParsedPair : Type := {
  pairKey : string;
  pairValue : SafeParseReturnType;
  alwaysSet : bool;
}.

Definition pairIssues (pair : ParsedPair) : list ZodIssue :=
  match pairValue pair with
  | SafeParseSuccess _ => []
  | SafeParseError errors => errors
  end.

(** [mergeObjectSync], for pairs that all parsed successfully. *)
Definition mergePair (finalObject : gmap string Value) (pair : ParsedPair)
    : gmap string Value :=
  match pairValue pair with
  | SafeParseSuccess VUndefined =>
      if alwaysSet pair then <[pairKey pair := VUndefined]> finalObject
      else finalObject
  | SafeParseSuccess value => <[pairKey pair := value]> finalObject
  | SafeParseError _ => finalObject
  end.

(** [typeof value !== 'undefined'] *)
Definition isDefined (value : Value) : bool :=
  match value with
  | VUndefined => false
  | _ => true
  end.

(** The undeclared keys of the input with their values; like every pair
    that is not [alwaysSet], they are merged when the value is not
    [undefined]. *)
Definition extraKeys (shapeKeys : list string) (input : gmap string Value)
    : gmap string Value :=
  filter (λ kv, (kv.1 ∉ shapeKeys) ∧ (isDefined kv.2 = true)) input.

Definition mergeObject (unknownKeys : UnknownKeysParam)
    (shapeKeys : list string) (input : gmap string Value)
    (pairs : list ParsedPair) : SafeParseReturnType :=
  match concat (pairIssues <$> pairs) with
  | [] =>
      let declared := fold_left mergePair pairs ∅ in
      SafeParseSuccess (VObject
        match unknownKeys with
        | strip => declared
        | passthrough => declared ∪ extraKeys shapeKeys input
        end)
  | errors => SafeParseError errors
  end.

Fixpoint _parse (schema : ZodType) (path : list PathSegment) (input : Value)
    {struct schema} : SafeParseReturnType :=
  match schema with
  | ZodString =>
      match input with
      | VString _ => SafeParseSuccess input
      | _ => SafeParseError [invalid_type "string" input path]
      end
  | ZodNumber =>
      match input with
      | VNumber _ => SafeParseSuccess input
      | _ => SafeParseError [invalid_type "number" input path]
      end
  | ZodBoolean =>
      match input with
      | VBoolean _ => SafeParseSuccess input
      | _ => SafeParseError [invalid_type "boolean" input path]
      end
  | ZodOptional innerType =>
      match input with
      | VUndefined => SafeParseSuccess VUndefined
      | _ => _parse innerType path input
      end
  | ZodNullable innerType =>
      match input with
      | VNull => SafeParseSuccess VNull
      | _ => _parse innerType path input
      end
  | ZodObject shape unknownKeys =>
      match input with
      | VObject fields =>
          let pairs :=
            (λ '(key, keyValidator),
               {| pairKey := key;
                  pairValue :=
                    _parse keyValidator (path ++ [PKey key])
                           (getProp fields key);
                  alwaysSet := bool_decide (is_Some (fields !! key)) |})
            <$> shape in
          mergeObject unknownKeys shape.*1 fields pairs
      | _ => SafeParseError [invalid_type "object" input path]
      end
  end.

#[global] Instance zodSchema : ZodSchema ZodType := {|
  safeParse schema input := _parse schema [] input;
  shape schema :=
    match schema with
    | ZodObject shape _ => Some shape
    | _ => None
    end;
  instanceofZodOptional schema :=
    match schema with ZodOptional _ => true | _ => false end;
  instanceofZodNullable schema :=
    match schema with ZodNullable _ => true | _ => false end;
|}.

End MiniZod.

(** ** Vocabulary of the statements *)

(** The record both validation-failure sites of the Action wrapper return
    for the issues [errors]. *)
Definition validationFailure (errors : list ZodIssue) : TypeResponse :=
  {| success := false;
     messages := Some (ZodSchemaValidatedAction.errorToMessage <$> errors);
     data := None |}.

(** The shape [entries] declares the field [key] with a schema that is an
    instance of [ZodOptional] or of [ZodNullable]. *)
Definition declaresOptionalOrNullable {Schema : Type} `{ZodSchema Schema}
    (entries : list (string * Schema)) (key : string) : Prop :=
  ∃ schemaField, (key, schemaField) ∈ entries ∧
    instanceofZodOptional schemaField || instanceofZodNullable schemaField
      = true.

(** The message [m] reports the issue [error]: its code is
    [VALIDATION_ERROR] and its text is the issue's message followed by
    [ (at <path>)], the path segments joined by dots. *)
Definition reportsIssue (m : TypeMessage) (error : ZodIssue) : Prop :=
  code m = VALIDATION_ERROR ∧
  text m = message error +:+ " (at "
             +:+ String.concat "." (pathSegmentToString <$> path error)
             +:+ ")".

(** The record has a [messages] property holding a non-empty list. *)
Definition messagesNonEmpty (response : TypeResponse) : Prop :=
  ∃ m texts, messages response = Some (m :: texts).

(** Every failure result of the schema engine carries at least one issue,
    as zod's do: zod's [safeParse] returns a failure only together with the
    issues it has collected. *)
Definition failuresCarryIssues (Schema : Type) `{ZodSchema Schema} : Prop :=
  ∀ (schema : Schema) (value : Value) (errors : list ZodIssue),
    safeParse schema value = SafeParseError errors → errors ≠ [].

(** The ways in which a call [execute(payload)] of the Action wrapper built
    from [payloadSchema], [objectSchema] and [action], started with the unit
    in state [s] and invoked so far with the payloads [log], can produce a
    response record, together with the unit's state and invocations after
    the call.  In the two failure cases the record has [success] false, no
    [data], and messages [texts] that report the issues of the failed
    validation one by one, each with the code [VALIDATION_ERROR] and the
    text [<message> (at <path>)]. *)
Inductive ExecuteCase {Schema : Type} `{ZodSchema Schema} {St : Type}
    (payloadSchema objectSchema : Schema) (action : ActionInterface St)
    (payload : Value) (s : St) (log : list Value)
    : TypeResponse → St * list Value → Prop :=
| InputRejected cleaned errors texts :
    OptionalFieldStripperHelper.stripEmptyStrings payload payloadSchema
      = Normal cleaned →
    safeParse payloadSchema (VObject cleaned) = SafeParseError errors →
    Forall2 reportsIssue texts errors →
    ExecuteCase payloadSchema objectSchema action payload s log
      {| success := false; messages := Some texts; data := None |}
      (s, log)
| OutputRejected cleaned parsedPayload response s' errors texts :
    OptionalFieldStripperHelper.stripEmptyStrings payload payloadSchema
      = Normal cleaned →
    safeParse payloadSchema (VObject cleaned)
      = SafeParseSuccess parsedPayload →
    execute action parsedPayload s = (Normal response, s') →
    safeParse objectSchema (getData response) = SafeParseError errors →
    Forall2 reportsIssue texts errors →
    ExecuteCase payloadSchema objectSchema action payload s log
      {| success := false; messages := Some texts; data := None |}
      (s', log ++ [parsedPayload])
| BothAccepted cleaned parsedPayload response s' validated :
    OptionalFieldStripperHelper.stripEmptyStrings payload payloadSchema
      = Normal cleaned →
    safeParse payloadSchema (VObject cleaned)
      = SafeParseSuccess parsedPayload →
    execute action parsedPayload s = (Normal response, s') →
    safeParse objectSchema (getData response) = SafeParseSuccess validated →
    ExecuteCase payloadSchema objectSchema action payload s log
      {| success := success response;
         messages := messages response;
         data := Some validated |}
      (s', log ++ [parsedPayload]).

(** ** Concrete schemas, units and payloads *)

Module Scenario.
Import MiniZod.

(** [z.object({ name: z.string() })] *)
Definition inputSchema : ZodType :=
  ZodObject [("name", ZodString)] strip.

(** [z.object({ id: z.number() })] *)
Definition outputSchema : ZodType :=
  ZodObject [("id", ZodNumber)] strip.

(** [z.object({ id: z.number() }).passthrough()] *)
Definition passthroughOutputSchema : ZodType :=
  ZodObject [("id", ZodNumber)] passthrough.

(** [z.object({ count: z.number().optional() })] *)
Definition optionalCountSchema : ZodType :=
  ZodObject [("count", ZodOptional ZodNumber)] strip.

(** [z.object({ note: z.string().nullable() })] *)
Definition nullableNoteSchema : ZodType :=
  ZodObject [("note", ZodNullable ZodString)] strip.

(** [{ name: 'John Doe' }] *)
Definition johnDoe : Value :=
  VObject {[ "name" := VString "John Doe" ]}.

(** [{ name: 123 }] *)
Definition numericName : Value :=
  VObject {[ "name" := VNumber 123 ]}.

(** [{ count: '' }] *)
Definition emptyCount : Value :=
  VObject {[ "count" := VString "" ]}.

(** [{ note: '' }] *)
Definition emptyNote : Value :=
  VObject {[ "note" := VString "" ]}.

(** The stateless units of the test-suite. *)
Definition MockAction : ActionInterface () :=
  {| execute _ :=
       ret {| success := true;
              data := Some (VObject {[ "id" := VNumber 1 ]});
              messages := Some [] |} |}.

Definition InvalidOutputMockAction : ActionInterface () :=
  {| execute _ :=
       ret {| success := true;
              data := Some (VObject {[ "id" := VString "invalid" ]});
              messages := Some [] |} |}.

Definition ExtraFieldsMockAction : ActionInterface () :=
  {| execute _ :=
       ret {| success := true;
              data := Some (VObject
                {[ "id" := VNumber 1;
                   "extraField" := VString "this should be stripped" ]});
              messages := Some [] |} |}.

Definition MockService : ServiceInterface () Value Value :=
  {| execute _ := ret (VObject {[ "id" := VNumber 1 ]}) |}.

(** A unit that succeeds and reports a message of its own. *)
Definition InformativeAction : ActionInterface () :=
  {| execute _ :=
       ret {| success := true;
              data := Some (VObject {[ "id" := VNumber 1 ]});
              messages := Some [{| code := "INFO"; text := "Created" |}] |} |}.

(** A unit that fails: no [data], a message of its own. *)
Definition FailingAction : ActionInterface () :=
  {| execute _ :=
       ret {| success := false;
              data := None;
              messages :=
                Some [{| code := "NOT_FOUND"; text := "No such user" |}] |} |}.

(** A unit that reports failure and returns [data] all the same. *)
Definition FailingWithDataAction : ActionInterface () :=
  {| execute _ :=
       ret {| success := false;
              data := Some (VObject {[ "id" := VNumber 1 ]});
              messages :=
                Some [{| code := "NOT_SAVED"; text := "Not saved" |}] |} |}.

(** A store with one object, [{ count: '' }], at address 1. *)
Definition oneObjectHeap : gmap positive (gmap string Value) :=
  {[ 1%positive := {[ "count" := VString "" ]} ]}.

End Scenario.

(** ** Helper/ResponseHelper.ts *)

Module ResponseHelper.

(** [createErrorResponse(code, message)]: the returned literal has no
    [data] property. *)
Definition createErrorResponse (code message : string) : TypeResponse :=
  {| success := false;
     messages := Some [{| code := code; text := message |}];
     data := None |}.

End ResponseHelper.

(** ** The other version of the Action wrapper (src/unnamed/part_002) *)

(** The sources hold a second version of the class
    [ZodSchemaValidatedAction].  It validates the payload as it is given,
    forces strip mode on the output schema with [.strip()], reports the
    bare issue message, and assigns [response.data] before it looks at the
    result of the output validation. *)
Module EarlierZodSchemaValidatedAction.

(** [schema.strip()], a method of object schemas only: [None] where the
    property [strip] is [undefined], so that the call throws a
    [TypeError]. *)
Class ZodObjectMethods (Schema : Type) : Type := {
  strip : Schema → option Schema;
}.

(** [ZodObject.strip()] returns the same shape with [unknownKeys] set to
    [strip]. *)
#[global] Instance miniZodObjectMethods : ZodObjectMethods MiniZod.ZodType := {|
  strip schema :=
    match schema with
    | MiniZod.ZodObject shape _ =>
        Some (MiniZod.ZodObject shape MiniZod.strip)
    | _ => None
    end;
|}.

Section WithSchema.
Context {Schema : Type} `{ZodSchema Schema} `{ZodObjectMethods Schema}.
Context {St : Type}.

Record t : Type := new {
  payloadSchema : Schema;
  objectSchema : Schema;
  action : ActionInterface St;
}.

(** The call [(this.objectSchema as unknown as ZodObject<any>).strip()]. *)
Definition callStrip (schema : Schema) : Completion Schema :=
  match strip schema with
  | Some stripped => Normal stripped
  | None => Throw TypeError
  end.

(** On an output failure the assignment [response.data = undefined] changes
    the unit's own response object; the record returned to the caller is
    the new literal. *)
Definition execute (this : t) (payload : Value) : M St TypeResponse :=
  match safeParse (payloadSchema this) payload with
  | SafeParseError errors =>
      ret {| success := false;
             messages :=
               Some ((λ error, {| code := VALIDATION_ERROR;
                                  text := message error |}) <$> errors);
             data := None |}
  | SafeParseSuccess parsedPayload =>
      let! response := execute (action this) parsedPayload in
      let! stripped := lift (callStrip (objectSchema this)) in
      match safeParse stripped (getData response) with
      | SafeParseError errors =>
          ret {| success := false;
                 messages :=
                   Some ((λ error, {| code := VALIDATION_ERROR;
                                      text := message error |}) <$> errors);
                 data := None |}
      | SafeParseSuccess validated =>
          ret (setData response validated)
      end
  end.

End WithSchema.
Arguments t Schema St : clear implicits.
End EarlierZodSchemaValidatedAction.

(** ** Further units and payloads *)

Module Cases.
Import MiniZod.

(** A unit whose promise rejects with the string ['network down'], after it
    has counted the call in its state. *)
Definition RejectingAction : ActionInterface nat :=
  {| execute _ := λ calls, (Throw (Rejection (VString "network down")), S calls) |}.

Definition RejectingService : ServiceInterface nat Value Value :=
  {| execute _ := λ calls, (Throw (Rejection (VString "network down")), S calls) |}.

(** A unit that answers with [ResponseHelper.createErrorResponse]. *)
Definition NotFoundAction : ActionInterface () :=
  {| execute _ :=
       ret (ResponseHelper.createErrorResponse "NOT_FOUND" "No such user") |}.

(** [z.object({ name: z.string(), count: z.number().optional() })] and the
    same fields declared in the other order. *)
Definition nameCountSchema : ZodType :=
  ZodObject [("name", ZodString); ("count", ZodOptional ZodNumber)] strip.

Definition countNameSchema : ZodType :=
  ZodObject [("count", ZodOptional ZodNumber); ("name", ZodString)] strip.

(** [{ name: 'John Doe', count: '' }] *)
Definition johnDoeEmptyCount : gmap string Value :=
  {[ "name" := VString "John Doe"; "count" := VString "" ]}.

(** [{ name: 'John Doe', count: undefined }] *)
Definition johnDoeNoCount : gmap string Value :=
  {[ "name" := VString "John Doe"; "count" := VUndefined ]}.

End Cases.

(** * Properties *)

(** ** The field-normalization helper *)

Section StripEmptyStrings.
Context {Schema : Type} `{ZodSchema Schema}.
Import OptionalFieldStripperHelper.

Lemma strictEqEmptyString_getProp (o : gmap string Value) (key : string) :
  strictEqEmptyString (getProp o key) = true ↔ o !! key = Some (VString "").
Proof.
  unfold getProp. destruct (o !! key) as [v|] eqn:E; simpl.
  - destruct v; simpl; try (split; [discriminate | intros [=]]).
    rewrite bool_decide_eq_true. split; [by intros ->|by intros [= ->]].
  - split; discriminate.
Qed.

(** One callback step, read at an arbitrary property. *)
Lemma forEachEntry_lookup (cleanedData : gmap string Value)
    (key : string) (schemaField : Schema) (k : string) :
  forEachEntry cleanedData (key, schemaField) !! k =
    if bool_decide (k = key)
       && (instanceofZodOptional schemaField
           || instanceofZodNullable schemaField)
       && strictEqEmptyString (getProp cleanedData key)
    then Some VUndefined
    else cleanedData !! k.
Proof.
  unfold forEachEntry.
  destruct (instanceofZodOptional schemaField || instanceofZodNullable schemaField);
    [|by rewrite andb_false_r].
  destruct (strictEqEmptyString (getProp cleanedData key));
    [|by rewrite andb_false_r].
  case_bool_decide as Hk; simpl.
  - subst k. by rewrite lookup_insert_eq.
  - by rewrite lookup_insert_ne.
Qed.

(** The whole [forEach] loop: a property ends up [undefined] when some
    entry declares it optional or nullable and it held the empty string
    when the loop started; every other property is as it was. *)
Lemma forEach_lookup (entries : list (string * Schema))
    (cleanedData : gmap string Value) (k : string) :
  (declaresOptionalOrNullable entries k →
   cleanedData !! k = Some (VString "") →
   fold_left forEachEntry entries cleanedData !! k = Some VUndefined) ∧
  (¬ (declaresOptionalOrNullable entries k ∧
      cleanedData !! k = Some (VString "")) →
   fold_left forEachEntry entries cleanedData !! k = cleanedData !! k).
Proof.
  revert cleanedData.
  induction entries as [|[key schemaField] entries IH]; intros cleanedData.
  { split; [|done]. intros (f & Hin & _). by apply elem_of_nil in Hin. }
  cbn [fold_left]. destruct (IH (forEachEntry cleanedData (key, schemaField))) as [IH1 IH2].
  pose proof (forEachEntry_lookup cleanedData key schemaField k) as Hstep.
  destruct (bool_decide (k = key) && _ && _) eqn:Hc.
  - apply andb_true_iff in Hc as [Hc Hempty].
    apply andb_true_iff in Hc as [Hk Hopt].
    apply bool_decide_eq_true in Hk as ->.
    apply strictEqEmptyString_getProp in Hempty.
    split.
    + intros _ _. rewrite IH2; [done|]. rewrite Hstep. intros [_ ?]. discriminate.
    + intros Hnot. exfalso. apply Hnot. split; [|done].
      exists schemaField. split; [by left|done].
  - rewrite Hstep in IH1, IH2. split.
    + intros (f & Hin & Hopt) Hk. apply IH1; [|done].
      apply elem_of_cons in Hin as [[= -> ->]|Hin]; [|by exists f].
      exfalso. apply strictEqEmptyString_getProp in Hk.
      rewrite bool_decide_eq_true_2, Hopt, Hk in Hc by done. discriminate.
    + intros Hnot. apply IH2.
      intros [(f & Hin & Hopt) Hk]. apply Hnot. split; [|done].
      exists f. split; [by right|done].
Qed.

(** The store version touches the fresh object only ... *)
Lemma forEachAt_frame (entries : list (string * Schema))
    (cleanedData : positive) (heap : gmap positive (gmap string Value))
    (l : positive) :
  l ≠ cleanedData →
  fold_left (forEachEntryAt cleanedData) entries heap !! l = heap !! l.
Proof.
  intros Hne. revert heap.
  induction entries as [|[key schemaField] entries IH]; intros heap; [done|].
  cbn [fold_left]. rewrite IH. unfold forEachEntryAt.
  destruct (_ || _); [|done].
  destruct (strictEqEmptyString _); [|done].
  by rewrite lookup_alter_ne.
Qed.

(** ... and computes in it what the value version computes. *)
Lemma forEachAt_value (entries : list (string * Schema))
    (cleanedData : positive) (heap : gmap positive (gmap string Value))
    (o : gmap string Value) :
  heap !! cleanedData = Some o →
  fold_left (forEachEntryAt cleanedData) entries heap !! cleanedData =
    Some (fold_left forEachEntry entries o).
Proof.
  revert heap o.
  induction entries as [|[key schemaField] entries IH]; intros heap o Ho; [done|].
  cbn [fold_left]. apply IH. unfold forEachEntryAt, forEachEntry.
  rewrite (lookup_total_correct _ _ _ Ho).
  destruct (_ || _); [|done].
  destruct (strictEqEmptyString _); [|done].
  by rewrite lookup_alter_eq, Ho.
Qed.

End StripEmptyStrings.

(** C7.  For every record and every object schema, [stripEmptyStrings]
    returns a record in which each top-level field that the schema declares
    with an optional or nullable field schema and whose value is exactly
    the empty string holds [undefined], while every other field holds what
    it held in the input: fields the schema does not declare, fields with
    any other value, and in particular nested objects, which are passed
    through whole. *)
Theorem stripEmptyStrings_normalizes {Schema : Type} `{ZodSchema Schema}
    (record : gmap string Value) (schema : Schema)
    (entries : list (string * Schema)) :
  shape schema = Some entries →
  ∃ cleanedData,
    OptionalFieldStripperHelper.stripEmptyStrings (VObject record) schema
      = Normal cleanedData ∧
    ∀ key,
      (declaresOptionalOrNullable entries key →
       record !! key = Some (VString "") →
       cleanedData !! key = Some VUndefined) ∧
      (¬ (declaresOptionalOrNullable entries key ∧
          record !! key = Some (VString "")) →
       cleanedData !! key = record !! key) ∧
      (∀ nested, record !! key = Some (VObject nested) →
       cleanedData !! key = Some (VObject nested)).
Proof.
  intros Hshape. unfold OptionalFieldStripperHelper.stripEmptyStrings.
  rewrite Hshape. eexists. split; [reflexivity|]. simpl. intros key.
  destruct (forEach_lookup entries record key) as [Hset Hkeep].
  repeat split; [done..|].
  intros nested Hnested. rewrite Hkeep; [done|].
  intros [_ Hempty]. congruence.
Qed.

Lemma stripEmptyStrings_normalizes_witness :
  shape Scenario.optionalCountSchema
    = Some [("count", MiniZod.ZodOptional MiniZod.ZodNumber)] ∧
  ∃ cleanedData,
    OptionalFieldStripperHelper.stripEmptyStrings
      (VObject {[ "count" := VString "";
                  "nested" := VObject {[ "count" := VString "" ]} ]})
      Scenario.optionalCountSchema = Normal cleanedData ∧
    ∀ key,
      (declaresOptionalOrNullable
         [("count", MiniZod.ZodOptional MiniZod.ZodNumber)] key →
       ({[ "count" := VString "";
           "nested" := VObject {[ "count" := VString "" ]} ]}
          : gmap string Value) !! key = Some (VString "") →
       cleanedData !! key = Some VUndefined) ∧
      (¬ (declaresOptionalOrNullable
            [("count", MiniZod.ZodOptional MiniZod.ZodNumber)] key ∧
          ({[ "count" := VString "";
              "nested" := VObject {[ "count" := VString "" ]} ]}
             : gmap string Value) !! key = Some (VString "")) →
       cleanedData !! key =
         ({[ "count" := VString "";
             "nested" := VObject {[ "count" := VString "" ]} ]}
            : gmap string Value) !! key) ∧
      (∀ nested,
         ({[ "count" := VString "";
             "nested" := VObject {[ "count" := VString "" ]} ]}
            : gmap string Value) !! key = Some (VObject nested) →
         cleanedData !! key = Some (VObject nested)).
Proof.
  split; [reflexivity|].
  apply (stripEmptyStrings_normalizes _ Scenario.optionalCountSchema).
  reflexivity.
Defined.

(** C8.  [stripEmptyStrings] does not mutate its input record.  On a store
    in which the argument [data] refers to a record, the store after the
    call holds the same record at [data], and the same object at every
    other address that was in use; the result is a different, new address,
    and it holds the normalized record, which may differ from the input. *)
Theorem stripEmptyStrings_does_not_mutate {Schema : Type} `{ZodSchema Schema}
    (heap : gmap positive (gmap string Value)) (data : positive)
    (record : gmap string Value) (schema : Schema) :
  heap !! data = Some record →
  let '(completion, heap') :=
    OptionalFieldStripperHelper.stripEmptyStringsAt heap data schema in
  heap' !! data = Some record ∧
  (∀ l o, heap !! l = Some o → heap' !! l = Some o) ∧
  (∀ entries, shape schema = Some entries →
     ∃ cleanedData cleaned,
       completion = Normal cleanedData ∧
       cleanedData ≠ data ∧
       OptionalFieldStripperHelper.stripEmptyStrings (VObject record) schema
         = Normal cleaned ∧
       heap' !! cleanedData = Some cleaned).
Proof.
  intros Hdata.
  unfold OptionalFieldStripperHelper.stripEmptyStringsAt,
    OptionalFieldStripperHelper.stripEmptyStrings.
  set (cleanedData := fresh (dom heap)).
  assert (Hfresh : heap !! cleanedData = None).
  { apply not_elem_of_dom. apply is_fresh. }
  assert (Hframe : ∀ l o, heap !! l = Some o →
            <[cleanedData := heap !!! data]> heap !! l = Some o).
  { intros l o Hl. rewrite lookup_insert_ne; [done|]. congruence. }
  destruct (shape schema) as [entries|].
  - assert (Hothers : ∀ l o, heap !! l = Some o →
              fold_left (OptionalFieldStripperHelper.forEachEntryAt cleanedData)
                entries (<[cleanedData := heap !!! data]> heap) !! l = Some o).
    { intros l o Hl. rewrite forEachAt_frame; [by apply Hframe|]. congruence. }
    split; [by apply Hothers|]. split; [done|].
    intros ? [= <-]. exists cleanedData. eexists.
    split; [done|]. split; [congruence|]. split; [reflexivity|].
    simpl. apply forEachAt_value.
    by rewrite lookup_insert_eq, (lookup_total_correct _ _ _ Hdata).
  - split; [by apply Hframe|]. split; [done|]. intros ? [=].
Qed.

Lemma stripEmptyStrings_does_not_mutate_witness :
  Scenario.oneObjectHeap !! 1%positive = Some {[ "count" := VString "" ]} ∧
  let '(completion, heap') :=
    OptionalFieldStripperHelper.stripEmptyStringsAt
      Scenario.oneObjectHeap 1%positive Scenario.optionalCountSchema in
  heap' !! 1%positive = Some {[ "count" := VString "" ]} ∧
  (∀ l o, Scenario.oneObjectHeap !! l = Some o → heap' !! l = Some o) ∧
  (∀ entries, shape Scenario.optionalCountSchema = Some entries →
     ∃ cleanedData cleaned,
       completion = Normal cleanedData ∧
       cleanedData ≠ 1%positive ∧
       OptionalFieldStripperHelper.stripEmptyStrings
         (VObject {[ "count" := VString "" ]}) Scenario.optionalCountSchema
         = Normal cleaned ∧
       heap' !! cleanedData = Some cleaned).
Proof.
  split; [reflexivity|].
  apply (stripEmptyStrings_does_not_mutate
           Scenario.oneObjectHeap 1%positive _ Scenario.optionalCountSchema).
  reflexivity.
Defined.

(** The copy in that store does differ from the input: [count] holds
    [undefined] in the new object and still the empty string in the old. *)
Example stripEmptyStringsAt_oneObjectHeap :
  OptionalFieldStripperHelper.stripEmptyStringsAt
    Scenario.oneObjectHeap 1%positive Scenario.optionalCountSchema
  = (Normal 2%positive,
     {[ 1%positive := {[ "count" := VString "" ]};
        2%positive := {[ "count" := VUndefined ]} ]}).
Proof. vm_compute. reflexivity. Qed.

(** ** The schema fragment *)

Section MiniZodFacts.
Import MiniZod.

(** An object schema rejects [undefined] with the single issue [Required]
    at the path of the object itself. *)
Lemma parse_object_undefined (shape : list (string * ZodType))
    (unknownKeys : UnknownKeysParam) (path : list PathSegment) :
  _parse (ZodObject shape unknownKeys) path VUndefined
    = SafeParseError [{| message := "Required"; path := path |}].
Proof. reflexivity. Qed.

(** Merging parsed fields only ever sets keys of those fields. *)
Lemma mergePair_keys (pairs : list ParsedPair)
    (finalObject : gmap string Value) (key : string) :
  is_Some (fold_left mergePair pairs finalObject !! key) →
  is_Some (finalObject !! key) ∨ key ∈ pairKey <$> pairs.
Proof.
  revert finalObject.
  induction pairs as [|pair pairs IH]; intros finalObject; cbn [fold_left].
  { by left. }
  intros Hkey. apply IH in Hkey as [Hkey|Hkey].
  - destruct (decide (key = pairKey pair)) as [->|Hne].
    { right. rewrite fmap_cons. by left. }
    left. revert Hkey. unfold mergePair.
    destruct (pairValue pair) as [[]|]; try destruct (alwaysSet pair);
      rewrite ?lookup_insert_ne by done; done.
  - right. rewrite fmap_cons. by right.
Qed.

(** In strip mode a successfully parsed object has declared fields only. *)
Lemma parse_strip_declared (shape : list (string * ZodType))
    (path : list PathSegment) (input validated : Value) :
  _parse (ZodObject shape strip) path input = SafeParseSuccess validated →
  ∃ fields, validated = VObject fields ∧
    ∀ key, is_Some (fields !! key) → key ∈ shape.*1.
Proof.
  cbn [_parse]. destruct input; try discriminate.
  unfold mergeObject. destruct (concat _); [|discriminate].
  intros [= <-]. eexists. split; [reflexivity|].
  intros key Hkey. apply mergePair_keys in Hkey as [Hkey|Hkey].
  - rewrite lookup_empty in Hkey. by destruct Hkey.
  - rewrite <- list_fmap_compose in Hkey.
    erewrite list_fmap_ext in Hkey; [exact Hkey|].
    by intros _ [? ?] _.
Qed.

(** A failure result always carries an issue. *)
Lemma parse_failure_has_issue (schema : ZodType) (path : list PathSegment)
    (input : Value) (errors : list ZodIssue) :
  _parse schema path input = SafeParseError errors → errors ≠ [].
Proof.
  revert path input.
  induction schema as [| | |innerType IH|innerType IH|shape unknownKeys];
    intros path input; cbn [_parse].
  - destruct input; intros [= <-]; discriminate.
  - destruct input; intros [= <-]; discriminate.
  - destruct input; intros [= <-]; discriminate.
  - destruct input; try apply IH. discriminate.
  - destruct input; try apply IH. discriminate.
  - destruct input; try (intros [= <-]; discriminate).
    unfold mergeObject. destruct (concat _); [discriminate|].
    intros [= <-]. discriminate.
Qed.

End MiniZodFacts.

(** ** The Action convention *)

Section Action.
Context {Schema : Type} `{ZodSchema Schema} {St : Type}.
Implicit Types (payloadSchema objectSchema : Schema).
Implicit Types (action : ActionInterface St).

(** The three ways in which [execute] is left normally, read off its
    definition for a unit under observation. *)
Lemma execute_spy_rejected_input payloadSchema objectSchema action
    (payload : Value) cleaned errors (s : St) (log : list Value) :
  OptionalFieldStripperHelper.stripEmptyStrings payload payloadSchema
    = Normal cleaned →
  safeParse payloadSchema (VObject cleaned) = SafeParseError errors →
  ZodSchemaValidatedAction.execute
      (ZodSchemaValidatedAction.new payloadSchema objectSchema (spy action))
      payload (s, log)
    = (Normal (validationFailure errors), (s, log)).
Proof.
  intros Hstrip Hinput. unfold ZodSchemaValidatedAction.execute, bind, lift, ret. simpl.
  by rewrite Hstrip, Hinput.
Qed.

Lemma execute_spy_rejected_output payloadSchema objectSchema action
    (payload : Value) cleaned parsedPayload response errors
    (s s' : St) (log : list Value) :
  OptionalFieldStripperHelper.stripEmptyStrings payload payloadSchema
    = Normal cleaned →
  safeParse payloadSchema (VObject cleaned) = SafeParseSuccess parsedPayload →
  execute action parsedPayload s = (Normal response, s') →
  safeParse objectSchema (getData response) = SafeParseError errors →
  ZodSchemaValidatedAction.execute
      (ZodSchemaValidatedAction.new payloadSchema objectSchema (spy action))
      payload (s, log)
    = (Normal (validationFailure errors), (s', log ++ [parsedPayload])).
Proof.
  intros Hstrip Hinput Hunit Houtput. unfold ZodSchemaValidatedAction.execute, bind, lift, ret. simpl.
  by rewrite Hstrip, Hinput, Hunit, Houtput.
Qed.

Lemma execute_spy_accepted payloadSchema objectSchema action
    (payload : Value) cleaned parsedPayload response validated
    (s s' : St) (log : list Value) :
  OptionalFieldStripperHelper.stripEmptyStrings payload payloadSchema
    = Normal cleaned →
  safeParse payloadSchema (VObject cleaned) = SafeParseSuccess parsedPayload →
  execute action parsedPayload s = (Normal response, s') →
  safeParse objectSchema (getData response) = SafeParseSuccess validated →
  ZodSchemaValidatedAction.execute
      (ZodSchemaValidatedAction.new payloadSchema objectSchema (spy action))
      payload (s, log)
    = (Normal (setData response validated), (s', log ++ [parsedPayload])).
Proof.
  intros Hstrip Hinput Hunit Houtput. unfold ZodSchemaValidatedAction.execute, bind, lift, ret. simpl.
  by rewrite Hstrip, Hinput, Hunit, Houtput.
Qed.

(** Messages report issues one by one exactly when they are the issues
    mapped through the arrow function of the two failure sites. *)
Lemma reportsIssue_errorToMessage (texts : list TypeMessage)
    (errors : list ZodIssue) :
  Forall2 reportsIssue texts errors
  ↔ texts = ZodSchemaValidatedAction.errorToMessage <$> errors.
Proof.
  split.
  - induction 1 as [|m error texts errors [Hcode Htext] _ IH]; [done|].
    rewrite fmap_cons, <- IH. f_equal.
    destruct m as [c t]. simpl in Hcode, Htext. by subst c t.
  - intros ->. apply Forall2_fmap_l, Forall_Forall2_diag, Forall_true.
    intros error. by split.
Qed.

(** Observing the unit changes nothing: the wrapper around [spy action]
    completes as the wrapper around [action] does and leaves the unit in
    the same state. *)
Lemma execute_spy_transparent payloadSchema objectSchema action
    (payload : Value) (s : St) (log : list Value) :
  let '(completion, s') :=
    ZodSchemaValidatedAction.execute
      (ZodSchemaValidatedAction.new payloadSchema objectSchema action)
      payload s in
  ∃ log',
    ZodSchemaValidatedAction.execute
      (ZodSchemaValidatedAction.new payloadSchema objectSchema (spy action))
      payload (s, log)
    = (completion, (s', log')).
Proof.
  unfold ZodSchemaValidatedAction.execute, bind, lift, ret. simpl.
  destruct (OptionalFieldStripperHelper.stripEmptyStrings _ _); [|by eexists].
  destruct (safeParse payloadSchema _) as [parsedPayload|]; [|by eexists].
  destruct (execute action parsedPayload s) as [[response|] s']; [|by eexists].
  destruct (safeParse objectSchema _); by eexists.
Qed.

(** Whatever [data] a returned record has is a value the output schema's
    validation yielded. *)
Lemma execute_data_validated (this : ZodSchemaValidatedAction.t Schema St)
    (payload : Value) (s after : St) (result : TypeResponse) (value : Value) :
  ZodSchemaValidatedAction.execute this payload s = (Normal result, after) →
  data result = Some value →
  ∃ input,
    safeParse (ZodSchemaValidatedAction.objectSchema this) input
      = SafeParseSuccess value.
Proof.
  unfold ZodSchemaValidatedAction.execute, bind, lift, ret.
  destruct (OptionalFieldStripperHelper.stripEmptyStrings _ _); [|discriminate].
  destruct (safeParse (ZodSchemaValidatedAction.payloadSchema this) _)
    as [parsedPayload|]; [|by intros [= <- _] [=]].
  destruct (execute _ parsedPayload s) as [[response|] s']; [|discriminate].
  destruct (safeParse (ZodSchemaValidatedAction.objectSchema this) _)
    as [validated|] eqn:Houtput; [|by intros [= <- _] [=]].
  intros [= <- _] [= <-]. by eexists.
Qed.

End Action.

(** C1 (amended).  For every payload whose normalized form, the record
    [stripEmptyStrings] makes of it, is rejected by the input schema,
    [execute] returns [{success: false, messages}] with one
    [VALIDATION_ERROR] message per issue of that validation, in order, and
    the wrapped unit is not invoked: its state and the record of its
    invocations are what they were before the call. *)
Theorem action_input_failure_short_circuits
    {Schema : Type} `{ZodSchema Schema} {St : Type}
    (payloadSchema objectSchema : Schema) (action : ActionInterface St)
    (payload : Value) (cleaned : gmap string Value) (errors : list ZodIssue)
    (s : St) (log : list Value) :
  OptionalFieldStripperHelper.stripEmptyStrings payload payloadSchema
    = Normal cleaned →
  safeParse payloadSchema (VObject cleaned) = SafeParseError errors →
  ZodSchemaValidatedAction.execute
      (ZodSchemaValidatedAction.new payloadSchema objectSchema (spy action))
      payload (s, log)
    = (Normal {| success := false;
                 messages :=
                   Some (ZodSchemaValidatedAction.errorToMessage <$> errors);
                 data := None |},
       (s, log)) ∧
  length (ZodSchemaValidatedAction.errorToMessage <$> errors) = length errors ∧
  Forall (λ m, code m = VALIDATION_ERROR)
         (ZodSchemaValidatedAction.errorToMessage <$> errors).
Proof.
  intros Hstrip Hinput. split; [|split].
  - by apply execute_spy_rejected_input with cleaned.
  - apply length_fmap.
  - apply Forall_fmap, Forall_true. done.
Qed.

Lemma action_input_failure_short_circuits_witness :
  OptionalFieldStripperHelper.stripEmptyStrings
      Scenario.numericName Scenario.inputSchema
    = Normal {[ "name" := VNumber 123 ]} ∧
  safeParse Scenario.inputSchema (VObject {[ "name" := VNumber 123 ]})
    = SafeParseError [{| message := "Expected string, received number";
                         path := [PKey "name"] |}] ∧
  ZodSchemaValidatedAction.execute
      (ZodSchemaValidatedAction.new Scenario.inputSchema Scenario.outputSchema
         (spy Scenario.MockAction))
      Scenario.numericName ((), [])
    = (Normal {| success := false;
                 messages :=
                   Some [{| code := VALIDATION_ERROR;
                            text := "Expected string, received number (at name)" |}];
                 data := None |},
       ((), [])).
Proof.
  split; [vm_compute; reflexivity|]. split; [vm_compute; reflexivity|].
  apply (action_input_failure_short_circuits
           Scenario.inputSchema Scenario.outputSchema Scenario.MockAction
           Scenario.numericName {[ "name" := VNumber 123 ]}
           [{| message := "Expected string, received number";
               path := [PKey "name"] |}] () []);
    vm_compute; reflexivity.
Defined.

(** C1 as stated fails.  The input schema
    [z.object({count: z.number().optional()})] rejects the payload
    [{count: ''}], yet [execute] normalizes the payload to
    [{count: undefined}], which the schema accepts, invokes the wrapped
    unit and returns its successful response. *)
Lemma action_invoked_on_rejected_payload :
  safeParse Scenario.optionalCountSchema Scenario.emptyCount
    = SafeParseError [{| message := "Expected number, received string";
                         path := [PKey "count"] |}] ∧
  ZodSchemaValidatedAction.execute
      (ZodSchemaValidatedAction.new
         Scenario.optionalCountSchema Scenario.outputSchema
         (spy Scenario.MockAction))
      Scenario.emptyCount ((), [])
    = (Normal {| success := true;
                 messages := Some [];
                 data := Some (VObject {[ "id" := VNumber 1 ]}) |},
       ((), [VObject {[ "count" := VUndefined ]}])).
Proof. split; vm_compute; reflexivity. Qed.

(** C5.  For every response of the wrapped unit whose [data] the output
    schema rejects, [execute] returns [{success: false, messages}] and no
    [data]; the messages report the output-side issues one by one, in
    order, each with the code [VALIDATION_ERROR] and the text
    [<message> (at <path>)] of its issue, and the result has nothing of the
    [success] and [messages] the unit returned. *)
Theorem action_output_failure_discards_response
    {Schema : Type} `{ZodSchema Schema} {St : Type}
    (payloadSchema objectSchema : Schema) (action : ActionInterface St)
    (payload : Value) (cleaned : gmap string Value) (parsedPayload : Value)
    (response : TypeResponse) (errors : list ZodIssue)
    (s s' : St) (log : list Value) :
  OptionalFieldStripperHelper.stripEmptyStrings payload payloadSchema
    = Normal cleaned →
  safeParse payloadSchema (VObject cleaned) = SafeParseSuccess parsedPayload →
  execute action parsedPayload s = (Normal response, s') →
  safeParse objectSchema (getData response) = SafeParseError errors →
  ∃ texts,
    ZodSchemaValidatedAction.execute
        (ZodSchemaValidatedAction.new payloadSchema objectSchema (spy action))
        payload (s, log)
      = (Normal {| success := false; messages := Some texts; data := None |},
         (s', log ++ [parsedPayload])) ∧
    length texts = length errors ∧
    Forall2 (λ m error,
               code m = VALIDATION_ERROR ∧
               text m = message error +:+ " (at "
                          +:+ String.concat "."
                                (pathSegmentToString <$> path error)
                          +:+ ")")
            texts errors.
Proof.
  intros Hstrip Hinput Hunit Houtput.
  exists (ZodSchemaValidatedAction.errorToMessage <$> errors).
  split; [|split].
  - by apply execute_spy_rejected_output with cleaned response.
  - apply length_fmap.
  - by apply reportsIssue_errorToMessage.
Qed.

Lemma action_output_failure_discards_response_witness :
  OptionalFieldStripperHelper.stripEmptyStrings
      Scenario.johnDoe Scenario.inputSchema
    = Normal {[ "name" := VString "John Doe" ]} ∧
  safeParse Scenario.inputSchema (VObject {[ "name" := VString "John Doe" ]})
    = SafeParseSuccess Scenario.johnDoe ∧
  execute Scenario.InvalidOutputMockAction Scenario.johnDoe ()
    = (Normal {| success := true;
                 messages := Some [];
                 data := Some (VObject {[ "id" := VString "invalid" ]}) |},
       ()) ∧
  safeParse Scenario.outputSchema (VObject {[ "id" := VString "invalid" ]})
    = SafeParseError [{| message := "Expected number, received string";
                         path := [PKey "id"] |}] ∧
  ZodSchemaValidatedAction.execute
      (ZodSchemaValidatedAction.new Scenario.inputSchema Scenario.outputSchema
         (spy Scenario.InvalidOutputMockAction))
      Scenario.johnDoe ((), [])
    = (Normal {| success := false;
                 messages :=
                   Some [{| code := VALIDATION_ERROR;
                            text := "Expected number, received string (at id)" |}];
                 data := None |},
       ((), [Scenario.johnDoe])) ∧
  ∃ texts,
    ZodSchemaValidatedAction.execute
        (ZodSchemaValidatedAction.new Scenario.inputSchema Scenario.outputSchema
           (spy Scenario.InvalidOutputMockAction))
        Scenario.johnDoe ((), [])
      = (Normal {| success := false; messages := Some texts; data := None |},
         ((), [] ++ [Scenario.johnDoe])) ∧
    length texts
      = length [{| message := "Expected number, received string";
                   path := [PKey "id"] |}] ∧
    Forall2 (λ m error,
               code m = VALIDATION_ERROR ∧
               text m = message error +:+ " (at "
                          +:+ String.concat "."
                                (pathSegmentToString <$> path error)
                          +:+ ")")
            texts
            [{| message := "Expected number, received string";
                path := [PKey "id"] |}].
Proof.
  repeat (split; [vm_compute; reflexivity|]).
  apply (action_output_failure_discards_response
           Scenario.inputSchema Scenario.outputSchema
           Scenario.InvalidOutputMockAction Scenario.johnDoe
           {[ "name" := VString "John Doe" ]} Scenario.johnDoe
           {| success := true;
              messages := Some [];
              data := Some (VObject {[ "id" := VString "invalid" ]}) |}
           [{| message := "Expected number, received string";
               path := [PKey "id"] |}] () () []);
    vm_compute; reflexivity.
Defined.

(** C3 (amended).  A response record returned by [execute] arises in one
    of three ways, and each of them yields that record.  Input validation
    of the normalized payload failed: [success] is false, [data] is absent,
    the messages report the input issues one by one, each with the code
    [VALIDATION_ERROR] and the text [<message> (at <path>)], and the unit
    was not invoked.  Or the unit was invoked once and output validation of
    the [data] it returned failed: [success] is false, [data] is absent and
    the messages report the output issues only, in the same way.  Or both
    validations passed: the record has the validated value as [data] and
    the [success] and [messages] the unit returned.

    Hence [success == true] implies that [data] is present, is a value the
    output schema's validation yielded, and that the unit itself reported
    success.  With a schema engine whose failures carry at least one issue,
    as zod's do, every validation failure has non-empty messages, all from
    one stage, and [messages] is non-empty iff [success == false] for the
    returned record whenever that holds for the records the wrapped unit
    returns. *)
Theorem action_response_stages :
  (∀ (Schema : Type) (engine : ZodSchema Schema) (St : Type)
     (payloadSchema objectSchema : Schema) (action : ActionInterface St)
     (payload : Value) (s : St) (log : list Value)
     (result : TypeResponse) (after : St * list Value),
     ZodSchemaValidatedAction.execute
         (ZodSchemaValidatedAction.new payloadSchema objectSchema (spy action))
         payload (s, log)
       = (Normal result, after)
     ↔ ExecuteCase payloadSchema objectSchema action payload s log
         result after) ∧
  (∀ (Schema : Type) (engine : ZodSchema Schema) (St : Type)
     (payloadSchema objectSchema : Schema) (action : ActionInterface St)
     (payload : Value) (s : St) (log : list Value)
     (result : TypeResponse) (after : St * list Value),
     ZodSchemaValidatedAction.execute
         (ZodSchemaValidatedAction.new payloadSchema objectSchema (spy action))
         payload (s, log)
       = (Normal result, after) →
     success result = true →
     ∃ parsedPayload response s' validated,
       execute action parsedPayload s = (Normal response, s') ∧
       success response = true ∧
       safeParse objectSchema (getData response)
         = SafeParseSuccess validated ∧
       data result = Some validated ∧
       messages result = messages response) ∧
  (∀ (Schema : Type) (engine : ZodSchema Schema) (St : Type)
     (payloadSchema objectSchema : Schema) (action : ActionInterface St)
     (payload : Value) (s : St) (log : list Value)
     (result : TypeResponse) (after : St * list Value)
     (errors : list ZodIssue),
     failuresCarryIssues Schema →
     ZodSchemaValidatedAction.execute
         (ZodSchemaValidatedAction.new payloadSchema objectSchema (spy action))
         payload (s, log)
       = (Normal result, after) →
     (∃ cleaned,
        OptionalFieldStripperHelper.stripEmptyStrings payload payloadSchema
          = Normal cleaned ∧
        (safeParse payloadSchema (VObject cleaned) = SafeParseError errors ∨
         ∃ parsedPayload response s',
           safeParse payloadSchema (VObject cleaned)
             = SafeParseSuccess parsedPayload ∧
           execute action parsedPayload s = (Normal response, s') ∧
           safeParse objectSchema (getData response)
             = SafeParseError errors)) →
     success result = false ∧
     data result = None ∧
     messagesNonEmpty result ∧
     ∃ texts, messages result = Some texts ∧
              Forall2 reportsIssue texts errors) ∧
  (∀ (Schema : Type) (engine : ZodSchema Schema) (St : Type)
     (payloadSchema objectSchema : Schema) (action : ActionInterface St)
     (payload : Value) (s : St) (log : list Value)
     (result : TypeResponse) (after : St * list Value),
     failuresCarryIssues Schema →
     (∀ parsedPayload response s',
        execute action parsedPayload s = (Normal response, s') →
        (messagesNonEmpty response ↔ success response = false)) →
     ZodSchemaValidatedAction.execute
         (ZodSchemaValidatedAction.new payloadSchema objectSchema (spy action))
         payload (s, log)
       = (Normal result, after) →
     (messagesNonEmpty result ↔ success result = false)) ∧
  failuresCarryIssues MiniZod.ZodType.
Proof.
  assert (Hstages :
    ∀ (Schema : Type) (engine : ZodSchema Schema) (St : Type)
      (payloadSchema objectSchema : Schema) (action : ActionInterface St)
      (payload : Value) (s : St) (log : list Value)
      (result : TypeResponse) (after : St * list Value),
      ZodSchemaValidatedAction.execute
          (ZodSchemaValidatedAction.new payloadSchema objectSchema (spy action))
          payload (s, log)
        = (Normal result, after) →
      ExecuteCase payloadSchema objectSchema action payload s log
        result after).
  { intros Schema engine St payloadSchema objectSchema action payload s log
      result after.
    unfold ZodSchemaValidatedAction.execute, bind, lift, ret. simpl.
    destruct (OptionalFieldStripperHelper.stripEmptyStrings _ _)
      as [cleaned|] eqn:Hstrip; [|discriminate].
    destruct (safeParse payloadSchema _) as [parsedPayload|errors] eqn:Hinput.
    - destruct (execute action parsedPayload s) as [[response|] s'] eqn:Hunit;
        [|discriminate].
      destruct (safeParse objectSchema _) as [validated|errors] eqn:Houtput;
        intros [= <- <-].
      + by eapply BothAccepted.
      + eapply OutputRejected; [done..|].
        by apply reportsIssue_errorToMessage.
    - intros [= <- <-]. eapply InputRejected; [done..|].
      by apply reportsIssue_errorToMessage. }
  assert (Hnonempty :
    ∀ (texts : list TypeMessage) (errors : list ZodIssue),
      Forall2 reportsIssue texts errors → errors ≠ [] →
      ∃ m texts', texts = m :: texts').
  { intros texts errors Hreports Herrors.
    destruct Hreports as [|m error texts' errors' _ _]; [done|].
    by exists m, texts'. }
  split; [|split; [|split; [|split]]].
  - intros Schema engine St payloadSchema objectSchema action payload s log
      result after.
    split; [apply Hstages|].
    intros [cleaned errors texts Hstrip Hinput Htexts
           |cleaned parsedPayload response s' errors texts
              Hstrip Hinput Hunit Houtput Htexts
           |cleaned parsedPayload response s' validated
              Hstrip Hinput Hunit Houtput].
    + apply reportsIssue_errorToMessage in Htexts as ->.
      by apply execute_spy_rejected_input with cleaned.
    + apply reportsIssue_errorToMessage in Htexts as ->.
      by apply execute_spy_rejected_output with cleaned response.
    + eapply execute_spy_accepted; eassumption.
  - intros Schema engine St payloadSchema objectSchema action payload s log
      result after Hexec Hsuccess.
    apply Hstages in Hexec.
    destruct Hexec as [| |cleaned parsedPayload response s' validated
                            Hstrip Hinput Hunit Houtput];
      [discriminate..|].
    by exists parsedPayload, response, s', validated.
  - intros Schema engine St payloadSchema objectSchema action payload s log
      result after errors Hissues Hexec (cleaned & Hstrip & Hfail).
    assert (Hresult : result = validationFailure errors).
    { destruct Hfail
        as [Hinput|(parsedPayload & response & s' & Hinput & Hunit & Houtput)].
      - rewrite (execute_spy_rejected_input _ _ _ _ _ _ _ _ Hstrip Hinput)
          in Hexec.
        by injection Hexec as <- _.
      - rewrite (execute_spy_rejected_output _ _ _ _ _ _ _ _ _ _ _
                   Hstrip Hinput Hunit Houtput) in Hexec.
        by injection Hexec as <- _. }
    assert (Herrors : errors ≠ []).
    { destruct Hfail as [Hinput|(? & ? & ? & _ & _ & Houtput)];
        by eapply Hissues. }
    assert (Htexts : Forall2 reportsIssue
              (ZodSchemaValidatedAction.errorToMessage <$> errors) errors)
      by by apply reportsIssue_errorToMessage.
    subst result. split; [done|]. split; [done|]. split.
    + destruct (Hnonempty _ _ Htexts Herrors) as (m & texts' & Heq).
      exists m, texts'. simpl. by rewrite Heq.
    + by eexists.
  - intros Schema engine St payloadSchema objectSchema action payload s log
      result after Hissues Hunitinv Hexec.
    apply Hstages in Hexec.
    destruct Hexec as [cleaned errors texts Hstrip Hinput Htexts
                      |cleaned parsedPayload response s' errors texts
                         Hstrip Hinput Hunit Houtput Htexts
                      |cleaned parsedPayload response s' validated
                         Hstrip Hinput Hunit Houtput].
    + split; [done|]. intros _.
      destruct (Hnonempty _ _ Htexts (Hissues _ _ _ Hinput))
        as (m & texts' & ->).
      by exists m, texts'.
    + split; [done|]. intros _.
      destruct (Hnonempty _ _ Htexts (Hissues _ _ _ Houtput))
        as (m & texts' & ->).
      by exists m, texts'.
    + exact (Hunitinv _ _ _ Hunit).
  - intros schema value errors. apply parse_failure_has_issue.
Qed.

Lemma action_response_stages_witness :
  ZodSchemaValidatedAction.execute
      (ZodSchemaValidatedAction.new Scenario.inputSchema Scenario.outputSchema
         (spy Scenario.InvalidOutputMockAction))
      Scenario.johnDoe ((), [])
    = (Normal {| success := false;
                 messages :=
                   Some [{| code := VALIDATION_ERROR;
                            text := "Expected number, received string (at id)" |}];
                 data := None |},
       ((), [Scenario.johnDoe])) ∧
  ExecuteCase Scenario.inputSchema Scenario.outputSchema
    Scenario.InvalidOutputMockAction Scenario.johnDoe () []
    {| success := false;
       messages :=
         Some [{| code := VALIDATION_ERROR;
                  text := "Expected number, received string (at id)" |}];
       data := None |}
    ((), [Scenario.johnDoe]) ∧
  failuresCarryIssues MiniZod.ZodType ∧
  (∀ parsedPayload response s',
     execute Scenario.InvalidOutputMockAction parsedPayload ()
       = (Normal response, s') →
     (messagesNonEmpty response ↔ success response = false)) ∧
  (messagesNonEmpty
     {| success := false;
        messages :=
          Some [{| code := VALIDATION_ERROR;
                   text := "Expected number, received string (at id)" |}];
        data := None |}
   ↔ success
       {| success := false;
          messages :=
            Some [{| code := VALIDATION_ERROR;
                     text := "Expected number, received string (at id)" |}];
          data := None |} = false).
Proof.
  assert (Hunit : ∀ parsedPayload response s',
            execute Scenario.InvalidOutputMockAction parsedPayload ()
              = (Normal response, s') →
            (messagesNonEmpty response ↔ success response = false)).
  { intros parsedPayload response s' Hexec. injection Hexec as <- _.
    split; [intros (m & texts & Hm); discriminate|discriminate]. }
  destruct action_response_stages
    as (Hstages & _ & _ & Hinvariant & Hissues).
  split; [vm_compute; reflexivity|].
  split; [apply Hstages; vm_compute; reflexivity|].
  split; [exact Hissues|]. split; [exact Hunit|].
  apply (Hinvariant _ _ _ Scenario.inputSchema Scenario.outputSchema
           Scenario.InvalidOutputMockAction Scenario.johnDoe () []
           _ ((), [Scenario.johnDoe]) Hissues Hunit).
  vm_compute; reflexivity.
Defined.

(** C3 as stated fails.  A unit that succeeds and reports a message of its
    own yields a record with [success == true] and non-empty [messages];
    a unit that reports failure next to [data] the output schema accepts
    yields a record with [success == false] whose [data] is present and
    valid per the output schema. *)
Lemma action_success_with_messages :
  ZodSchemaValidatedAction.execute
      (ZodSchemaValidatedAction.new Scenario.inputSchema Scenario.outputSchema
         (spy Scenario.InformativeAction))
      Scenario.johnDoe ((), [])
    = (Normal {| success := true;
                 messages := Some [{| code := "INFO"; text := "Created" |}];
                 data := Some (VObject {[ "id" := VNumber 1 ]}) |},
       ((), [Scenario.johnDoe])) ∧
  ZodSchemaValidatedAction.execute
      (ZodSchemaValidatedAction.new Scenario.inputSchema Scenario.outputSchema
         (spy Scenario.FailingWithDataAction))
      Scenario.johnDoe ((), [])
    = (Normal {| success := false;
                 messages :=
                   Some [{| code := "NOT_SAVED"; text := "Not saved" |}];
                 data := Some (VObject {[ "id" := VNumber 1 ]}) |},
       ((), [Scenario.johnDoe])) ∧
  safeParse Scenario.outputSchema (VObject {[ "id" := VNumber 1 ]})
    = SafeParseSuccess (VObject {[ "id" := VNumber 1 ]}).
Proof. repeat split; vm_compute; reflexivity. Qed.

(** C4 (amended).  For every validation failure, on the input side and on
    the output side, the returned messages report the issues one by one:
    each has the code [VALIDATION_ERROR] and the text
    [<message> (at <path>)], the path segments joined by dots.  The suffix
    is there for every path; for an empty path the text is
    [<message> (at )]. *)
Theorem action_validation_message_text
    {Schema : Type} `{ZodSchema Schema} {St : Type}
    (payloadSchema objectSchema : Schema) (action : ActionInterface St)
    (payload : Value) (s : St) (log : list Value)
    (result : TypeResponse) (after : St * list Value)
    (errors : list ZodIssue) :
  ZodSchemaValidatedAction.execute
      (ZodSchemaValidatedAction.new payloadSchema objectSchema (spy action))
      payload (s, log)
    = (Normal result, after) →
  (∃ cleaned,
     OptionalFieldStripperHelper.stripEmptyStrings payload payloadSchema
       = Normal cleaned ∧
     (safeParse payloadSchema (VObject cleaned) = SafeParseError errors ∨
      ∃ parsedPayload response s',
        safeParse payloadSchema (VObject cleaned)
          = SafeParseSuccess parsedPayload ∧
        execute action parsedPayload s = (Normal response, s') ∧
        safeParse objectSchema (getData response) = SafeParseError errors)) →
  ∃ texts,
    messages result = Some texts ∧
    Forall2 reportsIssue texts errors ∧
    Forall2 (λ m error, path error = [] → text m = message error +:+ " (at )")
            texts errors.
Proof.
  intros Hexec (cleaned & Hstrip & Hfail).
  assert (Hresult : result = validationFailure errors).
  { destruct Hfail as [Hinput|(parsedPayload & response & s' & Hinput & Hunit & Houtput)].
    - rewrite (execute_spy_rejected_input _ _ _ _ _ _ _ _ Hstrip Hinput) in Hexec.
      by injection Hexec as <- _.
    - rewrite (execute_spy_rejected_output _ _ _ _ _ _ _ _ _ _ _
                 Hstrip Hinput Hunit Houtput) in Hexec.
      by injection Hexec as <- _. }
  subst result. eexists. split; [reflexivity|]. split.
  - apply Forall2_fmap_l, Forall_Forall2_diag, Forall_true.
    intros error. by split.
  - apply Forall2_fmap_l, Forall_Forall2_diag, Forall_true.
    intros error Hpath. simpl. unfold join. by rewrite Hpath.
Qed.

Lemma action_validation_message_text_witness :
  ZodSchemaValidatedAction.execute
      (ZodSchemaValidatedAction.new Scenario.inputSchema Scenario.outputSchema
         (spy Scenario.FailingAction))
      Scenario.johnDoe ((), [])
    = (Normal {| success := false;
                 messages :=
                   Some [{| code := VALIDATION_ERROR;
                            text := "Required (at )" |}];
                 data := None |},
       ((), [Scenario.johnDoe])) ∧
  ∃ texts,
    Some [{| code := VALIDATION_ERROR; text := "Required (at )" |}]
      = Some texts ∧
    Forall2 reportsIssue texts [{| message := "Required"; path := [] |}] ∧
    Forall2 (λ m error, path error = [] → text m = message error +:+ " (at )")
            texts [{| message := "Required"; path := [] |}].
Proof.
  split; [vm_compute; reflexivity|].
  apply (action_validation_message_text
           Scenario.inputSchema Scenario.outputSchema Scenario.FailingAction
           Scenario.johnDoe () []
           {| success := false;
              messages := Some [{| code := VALIDATION_ERROR;
                                   text := "Required (at )" |}];
              data := None |}
           ((), [Scenario.johnDoe])
           [{| message := "Required"; path := [] |}]).
  - vm_compute; reflexivity.
  - exists {[ "name" := VString "John Doe" ]}.
    split; [vm_compute; reflexivity|]. right.
    exists Scenario.johnDoe,
      {| success := false;
         data := None;
         messages := Some [{| code := "NOT_FOUND"; text := "No such user" |}] |},
      ().
    repeat split; vm_compute; reflexivity.
Defined.

(** C4 as stated fails for an empty path.  When the unit returns no [data],
    the output schema [z.object({id: z.number()})] reports the issue
    [Required] with the empty path, and the text of the returned message is
    [Required (at )], not the bare message. *)
Lemma action_empty_path_text :
  safeParse Scenario.outputSchema (getData
      {| success := false;
         data := None;
         messages := Some [{| code := "NOT_FOUND"; text := "No such user" |}] |})
    = SafeParseError [{| message := "Required"; path := [] |}] ∧
  ZodSchemaValidatedAction.execute
      (ZodSchemaValidatedAction.new Scenario.inputSchema Scenario.outputSchema
         (spy Scenario.FailingAction))
      Scenario.johnDoe ((), [])
    = (Normal {| success := false;
                 messages :=
                   Some [{| code := VALIDATION_ERROR;
                            text := "Required (at )" |}];
                 data := None |},
       ((), [Scenario.johnDoe])) ∧
  "Required (at )" ≠ "Required".
Proof. repeat split; [vm_compute; reflexivity..|discriminate]. Qed.

(** With an object schema in strip mode as output schema, whatever [data]
    the wrapper returns has declared fields only. *)
Lemma execute_strip_closed {St : Type} (payloadSchema : MiniZod.ZodType)
    (shape : list (string * MiniZod.ZodType)) (action : ActionInterface St)
    (payload : Value) (s after : St) (result : TypeResponse) (value : Value) :
  ZodSchemaValidatedAction.execute
      (ZodSchemaValidatedAction.new payloadSchema
         (MiniZod.ZodObject shape MiniZod.strip) action)
      payload s
    = (Normal result, after) →
  data result = Some value →
  ∃ fields, value = VObject fields ∧
    ∀ key, is_Some (fields !! key) → key ∈ shape.*1.
Proof.
  intros Hexec Hdata.
  destruct (execute_data_validated _ _ _ _ _ _ Hexec Hdata) as [input Houtput].
  exact (parse_strip_declared shape [] input value Houtput).
Qed.

(** C2 (amended).  For every payload whose normalized form the input
    schema accepts and every response of the wrapped unit whose [data] the
    output schema accepts, [execute] invokes the unit once, with the input
    schema's parsed payload, and returns the unit's response record with
    [data] overwritten by the value the output schema's validation yields
    and with [success] and [messages] unchanged, so the unit's own
    messages flow through.  The wrapper selects no unknown-field mode of
    its own: the returned [data] has every undeclared field dropped
    whenever the output schema is an object schema in strip mode, zod's
    default. *)
Theorem action_accepted_response_passes_through :
  (∀ (Schema : Type) (engine : ZodSchema Schema) (St : Type)
     (payloadSchema objectSchema : Schema) (action : ActionInterface St)
     (payload : Value) (cleaned : gmap string Value) (parsedPayload : Value)
     (response : TypeResponse) (validated : Value)
     (s s' : St) (log : list Value),
     OptionalFieldStripperHelper.stripEmptyStrings payload payloadSchema
       = Normal cleaned →
     safeParse payloadSchema (VObject cleaned)
       = SafeParseSuccess parsedPayload →
     execute action parsedPayload s = (Normal response, s') →
     safeParse objectSchema (getData response) = SafeParseSuccess validated →
     ZodSchemaValidatedAction.execute
         (ZodSchemaValidatedAction.new payloadSchema objectSchema (spy action))
         payload (s, log)
       = (Normal {| success := success response;
                    messages := messages response;
                    data := Some validated |},
          (s', log ++ [parsedPayload]))) ∧
  (∀ (St : Type) (payloadSchema : MiniZod.ZodType)
     (shape : list (string * MiniZod.ZodType)) (action : ActionInterface St)
     (payload : Value) (s after : St) (result : TypeResponse) (value : Value),
     ZodSchemaValidatedAction.execute
         (ZodSchemaValidatedAction.new payloadSchema
            (MiniZod.ZodObject shape MiniZod.strip) action)
         payload s
       = (Normal result, after) →
     data result = Some value →
     ∃ fields, value = VObject fields ∧
       ∀ key, is_Some (fields !! key) → key ∈ shape.*1).
Proof.
  split.
  - intros Schema ? St payloadSchema objectSchema action payload cleaned
      parsedPayload response validated s s' log Hstrip Hinput Hunit Houtput.
    eapply execute_spy_accepted; eassumption.
  - intros St payloadSchema shape action payload s after result value.
    apply execute_strip_closed.
Qed.

Lemma action_accepted_response_passes_through_witness :
  (OptionalFieldStripperHelper.stripEmptyStrings
       Scenario.johnDoe Scenario.inputSchema
     = Normal {[ "name" := VString "John Doe" ]} ∧
   safeParse Scenario.inputSchema (VObject {[ "name" := VString "John Doe" ]})
     = SafeParseSuccess Scenario.johnDoe ∧
   execute Scenario.ExtraFieldsMockAction Scenario.johnDoe ()
     = (Normal {| success := true;
                  messages := Some [];
                  data := Some (VObject
                    {[ "id" := VNumber 1;
                       "extraField" := VString "this should be stripped" ]}) |},
        ()) ∧
   safeParse Scenario.outputSchema
       (VObject {[ "id" := VNumber 1;
                   "extraField" := VString "this should be stripped" ]})
     = SafeParseSuccess (VObject {[ "id" := VNumber 1 ]}) ∧
   ZodSchemaValidatedAction.execute
       (ZodSchemaValidatedAction.new Scenario.inputSchema Scenario.outputSchema
          (spy Scenario.ExtraFieldsMockAction))
       Scenario.johnDoe ((), [])
     = (Normal {| success := true;
                  messages := Some [];
                  data := Some (VObject {[ "id" := VNumber 1 ]}) |},
        ((), [Scenario.johnDoe]))) ∧
  (data {| success := true;
           messages := Some [];
           data := Some (VObject {[ "id" := VNumber 1 ]}) |}
     = Some (VObject {[ "id" := VNumber 1 ]}) ∧
   ∃ fields, VObject {[ "id" := VNumber 1 ]} = VObject fields ∧
     ∀ key, is_Some (fields !! key) → key ∈ [("id", MiniZod.ZodNumber)].*1).
Proof.
  split.
  - repeat (split; [vm_compute; reflexivity|]).
    apply (proj1 action_accepted_response_passes_through
             _ _ _ Scenario.inputSchema Scenario.outputSchema
             Scenario.ExtraFieldsMockAction Scenario.johnDoe
             {[ "name" := VString "John Doe" ]} Scenario.johnDoe
             {| success := true;
                messages := Some [];
                data := Some (VObject
                  {[ "id" := VNumber 1;
                     "extraField" := VString "this should be stripped" ]}) |}
             (VObject {[ "id" := VNumber 1 ]}) () () []);
      vm_compute; reflexivity.
  - split; [reflexivity|].
    apply (proj2 action_accepted_response_passes_through
             _ Scenario.inputSchema [("id", MiniZod.ZodNumber)]
             (spy Scenario.ExtraFieldsMockAction) Scenario.johnDoe
             ((), []) ((), [Scenario.johnDoe])
             {| success := true;
                messages := Some [];
                data := Some (VObject {[ "id" := VNumber 1 ]}) |});
      [vm_compute; reflexivity|reflexivity].
Defined.

(** C2 as stated fails, in two ways.  With the output schema
    [z.object({id: z.number()}).passthrough()], which accepts the unit's
    [data], the returned [data] still holds the undeclared [extraField].
    And the input schema [z.object({note: z.string().nullable()})] accepts
    the payload [{note: ''}], yet [execute] validates the normalized
    payload [{note: undefined}], which the schema rejects, and returns a
    validation failure without invoking the unit. *)
Lemma action_undeclared_field_kept :
  (safeParse Scenario.passthroughOutputSchema
       (VObject {[ "id" := VNumber 1;
                   "extraField" := VString "this should be stripped" ]})
     = SafeParseSuccess
         (VObject {[ "id" := VNumber 1;
                     "extraField" := VString "this should be stripped" ]}) ∧
   ZodSchemaValidatedAction.execute
       (ZodSchemaValidatedAction.new
          Scenario.inputSchema Scenario.passthroughOutputSchema
          (spy Scenario.ExtraFieldsMockAction))
       Scenario.johnDoe ((), [])
     = (Normal {| success := true;
                  messages := Some [];
                  data := Some (VObject
                    {[ "id" := VNumber 1;
                       "extraField" := VString "this should be stripped" ]}) |},
        ((), [Scenario.johnDoe])) ∧
   shape Scenario.passthroughOutputSchema = Some [("id", MiniZod.ZodNumber)] ∧
   "extraField" ∉ [("id", MiniZod.ZodNumber)].*1) ∧
  (safeParse Scenario.nullableNoteSchema Scenario.emptyNote
     = SafeParseSuccess Scenario.emptyNote ∧
   safeParse Scenario.outputSchema (VObject {[ "id" := VNumber 1 ]})
     = SafeParseSuccess (VObject {[ "id" := VNumber 1 ]}) ∧
   ZodSchemaValidatedAction.execute
       (ZodSchemaValidatedAction.new
          Scenario.nullableNoteSchema Scenario.outputSchema
          (spy Scenario.MockAction))
       Scenario.emptyNote ((), [])
     = (Normal {| success := false;
                  messages := Some [{| code := VALIDATION_ERROR;
                                       text := "Required (at note)" |}];
                  data := None |},
        ((), []))).
Proof.
  split.
  - repeat (split; [vm_compute; reflexivity|]).
    intros Hin. apply list_elem_of_In in Hin. simpl in Hin.
    destruct Hin as [Hin|[]]. discriminate.
  - repeat split; vm_compute; reflexivity.
Qed.




(** ** The Service convention *)

(** C6.  The Service-convention [execute] validates the payload as it is,
    without empty-string normalization.  If the input schema rejects the
    payload, the result is the schema engine's own failure result and the
    wrapped service is not invoked.  Otherwise the service is invoked once,
    with the schema's parsed payload, and the result is the result of
    validating the value the service returned against the output schema,
    returned as it is. *)
Theorem service_validates_calls_validates
    {Schema : Type} `{ZodSchema Schema} {St : Type}
    (payloadSchema responseSchema : Schema)
    (service : ServiceInterface St Value Value)
    (payload : Value) (s : St) (log : list Value) :
  (∀ errors,
     safeParse payloadSchema payload = SafeParseError errors →
     ZodSchemaValidatedService.execute
         (ZodSchemaValidatedService.new payloadSchema responseSchema
            (spy service))
         payload (s, log)
       = (Normal (SafeParseError errors), (s, log))) ∧
  (∀ parsedPayload response s',
     safeParse payloadSchema payload = SafeParseSuccess parsedPayload →
     execute service parsedPayload s = (Normal response, s') →
     ZodSchemaValidatedService.execute
         (ZodSchemaValidatedService.new payloadSchema responseSchema
            (spy service))
         payload (s, log)
       = (Normal (safeParse responseSchema response),
          (s', log ++ [parsedPayload]))).
Proof.
  split.
  - intros errors Hinput.
    unfold ZodSchemaValidatedService.execute, ret. simpl. by rewrite Hinput.
  - intros parsedPayload response s' Hinput Hunit.
    unfold ZodSchemaValidatedService.execute, bind, ret. simpl.
    by rewrite Hinput, Hunit.
Qed.

Lemma service_validates_calls_validates_witness :
  (safeParse Scenario.optionalCountSchema Scenario.emptyCount
     = SafeParseError [{| message := "Expected number, received string";
                          path := [PKey "count"] |}] ∧
   ZodSchemaValidatedService.execute
       (ZodSchemaValidatedService.new
          Scenario.optionalCountSchema Scenario.outputSchema
          (spy Scenario.MockService))
       Scenario.emptyCount ((), [])
     = (Normal (SafeParseError
                  [{| message := "Expected number, received string";
                      path := [PKey "count"] |}]),
        ((), []))) ∧
  (safeParse Scenario.inputSchema Scenario.johnDoe
     = SafeParseSuccess Scenario.johnDoe ∧
   execute Scenario.MockService Scenario.johnDoe ()
     = (Normal (VObject {[ "id" := VNumber 1 ]}), ()) ∧
   ZodSchemaValidatedService.execute
       (ZodSchemaValidatedService.new
          Scenario.inputSchema Scenario.outputSchema
          (spy Scenario.MockService))
       Scenario.johnDoe ((), [])
     = (Normal (safeParse Scenario.outputSchema
                  (VObject {[ "id" := VNumber 1 ]})),
        ((), [Scenario.johnDoe]))).
Proof.
  split.
  - split; [vm_compute; reflexivity|].
    apply (proj1 (service_validates_calls_validates
                    Scenario.optionalCountSchema Scenario.outputSchema
                    Scenario.MockService Scenario.emptyCount () [])).
    vm_compute; reflexivity.
  - repeat (split; [vm_compute; reflexivity|]).
    apply (proj2 (service_validates_calls_validates
                    Scenario.inputSchema Scenario.outputSchema
                    Scenario.MockService Scenario.johnDoe () [])
             Scenario.johnDoe (VObject {[ "id" := VNumber 1 ]}) ());
      vm_compute; reflexivity.
Defined.

(** ** The Tool adapters *)

(** C9.  For every payload, an [ActionTool] and a [ServiceTool] return
    exactly what the validated wrapper constructed with the same input
    schema, output schema and wrapped unit returns, with the same effect on
    the unit; and the [parameters] of the tool are the input schema it was
    constructed with. *)
Theorem tool_delegates_to_wrapper
    {Schema : Type} `{ZodSchema Schema} {St : Type}
    (name description : string) (payloadSchema responseSchema : Schema)
    (action : ActionInterface St) (service : ServiceInterface St Value Value)
    (payload : Value) (s : St) :
  ActionTool.execute
      (ActionTool.new name description payloadSchema responseSchema action)
      payload s
    = ZodSchemaValidatedAction.execute
        (ZodSchemaValidatedAction.new payloadSchema responseSchema action)
        payload s ∧
  ActionTool.parameters
      (ActionTool.new name description payloadSchema responseSchema action)
    = payloadSchema ∧
  ServiceTool.execute
      (ServiceTool.new name description payloadSchema responseSchema service)
      payload s
    = ZodSchemaValidatedService.execute
        (ZodSchemaValidatedService.new payloadSchema responseSchema service)
        payload s ∧
  ServiceTool.parameters
      (ServiceTool.new name description payloadSchema responseSchema service)
    = payloadSchema.
Proof. repeat split. Qed.

(** * Further properties *)

(** ** More on the field-normalization helper *)

Section StripEmptyStringsMore.
Context {Schema : Type} `{ZodSchema Schema}.
Import OptionalFieldStripperHelper.

(** The loop writes existing properties only. *)
Lemma forEach_dom (entries : list (string * Schema))
    (cleanedData : gmap string Value) :
  dom (fold_left forEachEntry entries cleanedData) = dom cleanedData.
Proof.
  revert cleanedData.
  induction entries as [|[key schemaField] entries IH]; intros cleanedData;
    [done|].
  cbn [fold_left]. rewrite IH. unfold forEachEntry.
  destruct (_ || _); [|done].
  destruct (strictEqEmptyString _) eqn:Hempty; [|done].
  apply strictEqEmptyString_getProp in Hempty.
  rewrite dom_insert_L. apply subseteq_union_1_L, singleton_subseteq_l.
  by apply elem_of_dom_2 in Hempty.
Qed.

(** Without an empty string at a declared optional or nullable property
    the loop changes nothing. *)
Lemma forEach_identity (entries : list (string * Schema))
    (cleanedData : gmap string Value) :
  (∀ key, declaresOptionalOrNullable entries key →
          cleanedData !! key ≠ Some (VString "")) →
  fold_left forEachEntry entries cleanedData = cleanedData.
Proof.
  intros Hnone. apply map_eq. intros key.
  apply forEach_lookup. intros [Hdecl Hempty]. by apply (Hnone key).
Qed.

(** After the loop no declared optional or nullable property holds the
    empty string. *)
Lemma forEach_no_empty (entries : list (string * Schema))
    (cleanedData : gmap string Value) (key : string) :
  declaresOptionalOrNullable entries key →
  fold_left forEachEntry entries cleanedData !! key ≠ Some (VString "").
Proof.
  intros Hdecl.
  destruct (forEach_lookup entries cleanedData key) as [Hset Hkeep].
  destruct (strictEqEmptyString (getProp cleanedData key)) eqn:Hempty.
  - apply strictEqEmptyString_getProp in Hempty.
    rewrite Hset by done. discriminate.
  - rewrite Hkeep.
    + intros Hk. apply strictEqEmptyString_getProp in Hk. congruence.
    + intros [_ Hk]. apply strictEqEmptyString_getProp in Hk. congruence.
Qed.

(** Whether a shape declares a property optional or nullable can be
    decided. *)
Lemma declaresOptionalOrNullable_dec (entries : list (string * Schema))
    (key : string) :
  declaresOptionalOrNullable entries key ∨
  ¬ declaresOptionalOrNullable entries key.
Proof.
  induction entries as [|[k schemaField] entries IH].
  { right. intros (f & Hin & _). by apply elem_of_nil in Hin. }
  destruct IH as [(f & Hin & Hopt)|IH].
  { left. exists f. split; [by right|done]. }
  destruct (decide (k = key)) as [->|Hne].
  - destruct (instanceofZodOptional schemaField
              || instanceofZodNullable schemaField) eqn:Hopt.
    + left. exists schemaField. split; [by left|done].
    + right. intros (f & Hin & Hf).
      apply elem_of_cons in Hin as [Heq|Hin];
        [injection Heq as <-; congruence|].
      apply IH. by exists f.
  - right. intros (f & Hin & Hf).
    apply elem_of_cons in Hin as [Heq|Hin]; [by injection Heq as -> _|].
    apply IH. by exists f.
Qed.

(** The result of the loop depends on the entries only through the
    properties they declare optional or nullable. *)
Lemma forEach_ext (entries entries' : list (string * Schema))
    (cleanedData : gmap string Value) :
  (∀ key, declaresOptionalOrNullable entries key ↔
          declaresOptionalOrNullable entries' key) →
  fold_left forEachEntry entries cleanedData
    = fold_left forEachEntry entries' cleanedData.
Proof.
  intros Hsame. apply map_eq. intros key.
  destruct (forEach_lookup entries cleanedData key) as [Hset Hkeep].
  destruct (forEach_lookup entries' cleanedData key) as [Hset' Hkeep'].
  destruct (declaresOptionalOrNullable_dec entries key) as [Hdecl|Hdecl].
  - destruct (strictEqEmptyString (getProp cleanedData key)) eqn:Hempty.
    + apply strictEqEmptyString_getProp in Hempty.
      rewrite (Hset Hdecl Hempty).
      by rewrite (Hset' (proj1 (Hsame key) Hdecl) Hempty).
    + assert (cleanedData !! key ≠ Some (VString "")) as Hne.
      { intros Hk. apply strictEqEmptyString_getProp in Hk. congruence. }
      rewrite Hkeep by (by intros [_ ?]).
      by rewrite Hkeep' by (by intros [_ ?]).
  - rewrite Hkeep by (by intros [? _]).
    rewrite Hkeep'; [done|].
    intros [Hd _]. by apply Hdecl, Hsame.
Qed.

(** Normalizing a normalized record changes nothing. *)
Lemma stripEmptyStrings_idempotent_aux (data : Value)
    (cleaned : gmap string Value) (schema : Schema) :
  stripEmptyStrings data schema = Normal cleaned →
  stripEmptyStrings (VObject cleaned) schema = Normal cleaned.
Proof.
  unfold stripEmptyStrings.
  destruct (shape schema) as [entries|]; [|discriminate].
  intros [= <-]. f_equal. simpl. apply forEach_identity.
  intros key. apply forEach_no_empty.
Qed.

End StripEmptyStringsMore.

(** X1.  [stripEmptyStrings] neither removes nor adds a property: the
    result has exactly the property names of the input record.  A field it
    normalizes is still there, holding [undefined]. *)
Theorem stripEmptyStrings_keeps_keys {Schema : Type} `{ZodSchema Schema}
    (record cleaned : gmap string Value) (schema : Schema) :
  OptionalFieldStripperHelper.stripEmptyStrings (VObject record) schema
    = Normal cleaned →
  dom cleaned = dom record.
Proof.
  unfold OptionalFieldStripperHelper.stripEmptyStrings.
  destruct (shape schema) as [entries|]; [|discriminate].
  intros [= <-]. apply forEach_dom.
Qed.

Lemma stripEmptyStrings_keeps_keys_witness :
  OptionalFieldStripperHelper.stripEmptyStrings
      (VObject Cases.johnDoeEmptyCount) Cases.nameCountSchema
    = Normal Cases.johnDoeNoCount ∧
  dom Cases.johnDoeNoCount = dom Cases.johnDoeEmptyCount.
Proof.
  split; [vm_compute; reflexivity|].
  apply (stripEmptyStrings_keeps_keys _ _ Cases.nameCountSchema).
  vm_compute; reflexivity.
Defined.

(** X2.  [stripEmptyStrings] is idempotent: normalizing its own result
    against the same schema returns that result unchanged. *)
Theorem stripEmptyStrings_idempotent {Schema : Type} `{ZodSchema Schema}
    (data : Value) (cleaned : gmap string Value) (schema : Schema) :
  OptionalFieldStripperHelper.stripEmptyStrings data schema = Normal cleaned →
  OptionalFieldStripperHelper.stripEmptyStrings (VObject cleaned) schema
    = Normal cleaned.
Proof.
  unfold OptionalFieldStripperHelper.stripEmptyStrings.
  destruct (shape schema) as [entries|]; [|discriminate].
  intros [= <-]. f_equal. simpl. apply forEach_identity.
  intros key. apply forEach_no_empty.
Qed.

Lemma stripEmptyStrings_idempotent_witness :
  OptionalFieldStripperHelper.stripEmptyStrings
      (VObject Cases.johnDoeEmptyCount) Cases.nameCountSchema
    = Normal Cases.johnDoeNoCount ∧
  OptionalFieldStripperHelper.stripEmptyStrings
      (VObject Cases.johnDoeNoCount) Cases.nameCountSchema
    = Normal Cases.johnDoeNoCount.
Proof.
  split; [vm_compute; reflexivity|].
  apply (stripEmptyStrings_idempotent (VObject Cases.johnDoeEmptyCount)).
  vm_compute; reflexivity.
Defined.

(** X3.  For an object schema, [stripEmptyStrings] returns a record equal
    to its input exactly when no field that the schema declares optional
    or nullable holds the empty string. *)
Theorem stripEmptyStrings_identity_iff {Schema : Type} `{ZodSchema Schema}
    (record : gmap string Value) (schema : Schema)
    (entries : list (string * Schema)) :
  shape schema = Some entries →
  OptionalFieldStripperHelper.stripEmptyStrings (VObject record) schema
    = Normal record
  ↔ ∀ key, declaresOptionalOrNullable entries key →
           record !! key ≠ Some (VString "").
Proof.
  intros Hshape. unfold OptionalFieldStripperHelper.stripEmptyStrings.
  rewrite Hshape. simpl. split.
  - intros [= Heq] key Hdecl. rewrite <- Heq. by apply forEach_no_empty.
  - intros Hnone. f_equal. by apply forEach_identity.
Qed.

Lemma stripEmptyStrings_identity_iff_witness :
  shape Cases.nameCountSchema
    = Some [("name", MiniZod.ZodString);
            ("count", MiniZod.ZodOptional MiniZod.ZodNumber)] ∧
  (OptionalFieldStripperHelper.stripEmptyStrings
       (VObject Cases.johnDoeNoCount) Cases.nameCountSchema
     = Normal Cases.johnDoeNoCount
   ↔ ∀ key,
       declaresOptionalOrNullable
         [("name", MiniZod.ZodString);
          ("count", MiniZod.ZodOptional MiniZod.ZodNumber)] key →
       Cases.johnDoeNoCount !! key ≠ Some (VString "")).
Proof.
  split; [reflexivity|].
  apply (stripEmptyStrings_identity_iff _ Cases.nameCountSchema).
  reflexivity.
Defined.

(** X4.  The order in which an object schema declares its fields does not
    matter to [stripEmptyStrings]: two schemas whose shapes are
    permutations of one another normalize every input alike. *)
Theorem stripEmptyStrings_order_irrelevant {Schema : Type} `{ZodSchema Schema}
    (data : Value) (schema schema' : Schema)
    (entries entries' : list (string * Schema)) :
  shape schema = Some entries →
  shape schema' = Some entries' →
  entries ≡ₚ entries' →
  OptionalFieldStripperHelper.stripEmptyStrings data schema
    = OptionalFieldStripperHelper.stripEmptyStrings data schema'.
Proof.
  intros Hshape Hshape' Hperm.
  unfold OptionalFieldStripperHelper.stripEmptyStrings.
  rewrite Hshape, Hshape'. f_equal. apply forEach_ext.
  intros key. unfold declaresOptionalOrNullable.
  split; intros (f & Hin & Hopt); exists f; split; try done.
  - by rewrite <- Hperm.
  - by rewrite Hperm.
Qed.

Lemma stripEmptyStrings_order_irrelevant_witness :
  shape Cases.nameCountSchema
    = Some [("name", MiniZod.ZodString);
            ("count", MiniZod.ZodOptional MiniZod.ZodNumber)] ∧
  shape Cases.countNameSchema
    = Some [("count", MiniZod.ZodOptional MiniZod.ZodNumber);
            ("name", MiniZod.ZodString)] ∧
  [("name", MiniZod.ZodString);
   ("count", MiniZod.ZodOptional MiniZod.ZodNumber)]
    ≡ₚ [("count", MiniZod.ZodOptional MiniZod.ZodNumber);
        ("name", MiniZod.ZodString)] ∧
  OptionalFieldStripperHelper.stripEmptyStrings
      (VObject Cases.johnDoeEmptyCount) Cases.nameCountSchema
    = OptionalFieldStripperHelper.stripEmptyStrings
        (VObject Cases.johnDoeEmptyCount) Cases.countNameSchema.
Proof.
  split; [reflexivity|]. split; [reflexivity|].
  split; [apply perm_swap|].
  apply (stripEmptyStrings_order_irrelevant
           _ Cases.nameCountSchema Cases.countNameSchema
           [("name", MiniZod.ZodString);
            ("count", MiniZod.ZodOptional MiniZod.ZodNumber)]
           [("count", MiniZod.ZodOptional MiniZod.ZodNumber);
            ("name", MiniZod.ZodString)]);
    [reflexivity|reflexivity|apply perm_swap].
Defined.

(** ** More on the Action convention *)

(** X5.  A rejection of the wrapped unit propagates: when the unit,
    invoked with the parsed payload, rejects with [e], [execute] rejects
    with the same [e]; the unit has been invoked once and keeps the state
    it reached, and no output validation takes place. *)
Theorem action_unit_rejection_propagates
    {Schema : Type} `{ZodSchema Schema} {St : Type}
    (payloadSchema objectSchema : Schema) (action : ActionInterface St)
    (payload : Value) (cleaned : gmap string Value) (parsedPayload : Value)
    (e : JsError) (s s' : St) (log : list Value) :
  OptionalFieldStripperHelper.stripEmptyStrings payload payloadSchema
    = Normal cleaned →
  safeParse payloadSchema (VObject cleaned) = SafeParseSuccess parsedPayload →
  execute action parsedPayload s = (Throw e, s') →
  ZodSchemaValidatedAction.execute
      (ZodSchemaValidatedAction.new payloadSchema objectSchema (spy action))
      payload (s, log)
    = (Throw e, (s', log ++ [parsedPayload])).
Proof.
  intros Hstrip Hinput Hunit.
  unfold ZodSchemaValidatedAction.execute, bind, lift, ret. simpl.
  by rewrite Hstrip, Hinput, Hunit.
Qed.

Lemma action_unit_rejection_propagates_witness :
  OptionalFieldStripperHelper.stripEmptyStrings
      Scenario.johnDoe Scenario.inputSchema
    = Normal {[ "name" := VString "John Doe" ]} ∧
  safeParse Scenario.inputSchema (VObject {[ "name" := VString "John Doe" ]})
    = SafeParseSuccess Scenario.johnDoe ∧
  execute Cases.RejectingAction Scenario.johnDoe 0
    = (Throw (Rejection (VString "network down")), 1) ∧
  ZodSchemaValidatedAction.execute
      (ZodSchemaValidatedAction.new Scenario.inputSchema Scenario.outputSchema
         (spy Cases.RejectingAction))
      Scenario.johnDoe (0, [])
    = (Throw (Rejection (VString "network down")), (1, [Scenario.johnDoe])).
Proof.
  repeat (split; [vm_compute; reflexivity|]).
  apply (action_unit_rejection_propagates
           Scenario.inputSchema Scenario.outputSchema Cases.RejectingAction
           Scenario.johnDoe {[ "name" := VString "John Doe" ]}
           Scenario.johnDoe (Rejection (VString "network down")) 0 1 []);
    vm_compute; reflexivity.
Defined.

(** X6.  With an input schema that has no [shape], that is, any schema
    that is not an object schema, [execute] throws a [TypeError] for every
    payload, before any validation and without invoking the unit. *)
Theorem action_non_object_schema_throws
    {Schema : Type} `{ZodSchema Schema} {St : Type}
    (payloadSchema objectSchema : Schema) (action : ActionInterface St)
    (payload : Value) (s : St) (log : list Value) :
  shape payloadSchema = None →
  ZodSchemaValidatedAction.execute
      (ZodSchemaValidatedAction.new payloadSchema objectSchema (spy action))
      payload (s, log)
    = (Throw TypeError, (s, log)).
Proof.
  intros Hshape.
  unfold ZodSchemaValidatedAction.execute, bind, lift,
    OptionalFieldStripperHelper.stripEmptyStrings. simpl.
  by rewrite Hshape.
Qed.

Lemma action_non_object_schema_throws_witness :
  shape MiniZod.ZodString = None ∧
  ZodSchemaValidatedAction.execute
      (ZodSchemaValidatedAction.new MiniZod.ZodString Scenario.outputSchema
         (spy Scenario.MockAction))
      (VString "John Doe") ((), [])
    = (Throw TypeError, ((), [])).
Proof.
  split; [reflexivity|].
  apply (action_non_object_schema_throws
           MiniZod.ZodString Scenario.outputSchema Scenario.MockAction).
  reflexivity.
Defined.

(** X7.  However a call of [execute] ends, by a response or by an
    exception, the wrapped unit was either not invoked at all, and is in
    the state it was in, or invoked exactly once, with a value the input
    schema's validation of the normalized payload yielded. *)
Theorem action_unit_sees_only_parsed_payloads
    {Schema : Type} `{ZodSchema Schema} {St : Type}
    (payloadSchema objectSchema : Schema) (action : ActionInterface St)
    (payload : Value) (s s' : St) (log log' : list Value)
    (completion : Completion TypeResponse) :
  ZodSchemaValidatedAction.execute
      (ZodSchemaValidatedAction.new payloadSchema objectSchema (spy action))
      payload (s, log)
    = (completion, (s', log')) →
  (log' = log ∧ s' = s) ∨
  (∃ cleaned parsedPayload,
     OptionalFieldStripperHelper.stripEmptyStrings payload payloadSchema
       = Normal cleaned ∧
     safeParse payloadSchema (VObject cleaned)
       = SafeParseSuccess parsedPayload ∧
     log' = log ++ [parsedPayload]).
Proof.
  unfold ZodSchemaValidatedAction.execute, bind, lift, ret. simpl.
  destruct (OptionalFieldStripperHelper.stripEmptyStrings _ _)
    as [cleaned|] eqn:Hstrip; [|intros [= _ <- <-]; by left].
  destruct (safeParse payloadSchema _) as [parsedPayload|] eqn:Hinput;
    [|intros [= _ <- <-]; by left].
  intros Hexec. right. exists cleaned, parsedPayload.
  split; [done|]. split; [done|].
  destruct (execute action parsedPayload s) as [[response|] s''].
  - destruct (safeParse objectSchema _); by injection Hexec as _ _ <-.
  - by injection Hexec as _ _ <-.
Qed.

Lemma action_unit_sees_only_parsed_payloads_witness :
  ZodSchemaValidatedAction.execute
      (ZodSchemaValidatedAction.new Scenario.inputSchema Scenario.outputSchema
         (spy Cases.RejectingAction))
      Scenario.johnDoe (0, [])
    = (Throw (Rejection (VString "network down")), (1, [Scenario.johnDoe])) ∧
  (([Scenario.johnDoe] = [] ∧ 1 = 0) ∨
   (∃ cleaned parsedPayload,
      OptionalFieldStripperHelper.stripEmptyStrings
          Scenario.johnDoe Scenario.inputSchema
        = Normal cleaned ∧
      safeParse Scenario.inputSchema (VObject cleaned)
        = SafeParseSuccess parsedPayload ∧
      [Scenario.johnDoe] = [] ++ [parsedPayload])).
Proof.
  split; [vm_compute; reflexivity|].
  apply (action_unit_sees_only_parsed_payloads
           Scenario.inputSchema Scenario.outputSchema Cases.RejectingAction
           Scenario.johnDoe 0 1 [] [Scenario.johnDoe]
           (Throw (Rejection (VString "network down")))).
  vm_compute; reflexivity.
Defined.

(** X8.  A payload that is [undefined], [null], a boolean or a number has
    no properties to spread: [execute] treats it exactly as it treats the
    empty object [{}], so such a payload is not rejected for not being an
    object. *)
Theorem action_primitive_payload_as_empty_object
    {Schema : Type} `{ZodSchema Schema} {St : Type}
    (this : ZodSchemaValidatedAction.t Schema St) :
  ZodSchemaValidatedAction.execute this VUndefined
    = ZodSchemaValidatedAction.execute this (VObject ∅) ∧
  ZodSchemaValidatedAction.execute this VNull
    = ZodSchemaValidatedAction.execute this (VObject ∅) ∧
  (∀ b, ZodSchemaValidatedAction.execute this (VBoolean b)
          = ZodSchemaValidatedAction.execute this (VObject ∅)) ∧
  (∀ n, ZodSchemaValidatedAction.execute this (VNumber n)
          = ZodSchemaValidatedAction.execute this (VObject ∅)).
Proof. repeat split. Qed.

(** X9.  [execute] depends on the payload only through its normalized
    form: a payload and the record [stripEmptyStrings] makes of it are
    executed alike.  In particular the empty string and [undefined] at an
    optional or nullable field cannot be told apart through the wrapper. *)
Theorem action_factors_through_normalization
    {Schema : Type} `{ZodSchema Schema} {St : Type}
    (this : ZodSchemaValidatedAction.t Schema St)
    (payload : Value) (cleaned : gmap string Value) :
  OptionalFieldStripperHelper.stripEmptyStrings
      payload (ZodSchemaValidatedAction.payloadSchema this)
    = Normal cleaned →
  ZodSchemaValidatedAction.execute this payload
    = ZodSchemaValidatedAction.execute this (VObject cleaned).
Proof.
  intros Hstrip. unfold ZodSchemaValidatedAction.execute.
  by rewrite (stripEmptyStrings_idempotent_aux _ _ _ Hstrip), Hstrip.
Qed.

Lemma action_factors_through_normalization_witness :
  OptionalFieldStripperHelper.stripEmptyStrings
      (VObject Cases.johnDoeEmptyCount) Cases.nameCountSchema
    = Normal Cases.johnDoeNoCount ∧
  ZodSchemaValidatedAction.execute
      (ZodSchemaValidatedAction.new Cases.nameCountSchema Scenario.outputSchema
         (spy Scenario.MockAction))
      (VObject Cases.johnDoeEmptyCount)
    = ZodSchemaValidatedAction.execute
        (ZodSchemaValidatedAction.new Cases.nameCountSchema Scenario.outputSchema
           (spy Scenario.MockAction))
        (VObject Cases.johnDoeNoCount).
Proof.
  split; [vm_compute; reflexivity|].
  apply (action_factors_through_normalization
           (ZodSchemaValidatedAction.new
              Cases.nameCountSchema Scenario.outputSchema
              (spy Scenario.MockAction))
           (VObject Cases.johnDoeEmptyCount) Cases.johnDoeNoCount).
  vm_compute; reflexivity.
Defined.

(** X10.  When no field that the input schema declares optional or
    nullable holds the empty string, the two conventions reject a record
    alike: if the input schema rejects it, the Service wrapper returns the
    failure result and the Action wrapper returns [{success: false}] with
    one message per issue of that same result, and neither invokes its
    unit. *)
Theorem action_and_service_reject_alike
    {Schema : Type} `{ZodSchema Schema} {St St' : Type}
    (payloadSchema objectSchema : Schema)
    (action : ActionInterface St) (service : ServiceInterface St' Value Value)
    (record : gmap string Value) (entries : list (string * Schema))
    (errors : list ZodIssue)
    (s : St) (s' : St') (log log' : list Value) :
  shape payloadSchema = Some entries →
  (∀ key, declaresOptionalOrNullable entries key →
          record !! key ≠ Some (VString "")) →
  safeParse payloadSchema (VObject record) = SafeParseError errors →
  ZodSchemaValidatedService.execute
      (ZodSchemaValidatedService.new payloadSchema objectSchema (spy service))
      (VObject record) (s', log')
    = (Normal (SafeParseError errors), (s', log')) ∧
  ZodSchemaValidatedAction.execute
      (ZodSchemaValidatedAction.new payloadSchema objectSchema (spy action))
      (VObject record) (s, log)
    = (Normal {| success := false;
                 messages :=
                   Some (ZodSchemaValidatedAction.errorToMessage <$> errors);
                 data := None |},
       (s, log)).
Proof.
  intros Hshape Hnone Hinput. split.
  - unfold ZodSchemaValidatedService.execute, ret. simpl. by rewrite Hinput.
  - apply execute_spy_rejected_input with record; [|done].
    unfold OptionalFieldStripperHelper.stripEmptyStrings.
    rewrite Hshape. f_equal. by apply forEach_identity.
Qed.

Lemma action_and_service_reject_alike_witness :
  shape Scenario.inputSchema = Some [("name", MiniZod.ZodString)] ∧
  (∀ key, declaresOptionalOrNullable [("name", MiniZod.ZodString)] key →
          ({[ "name" := VNumber 123 ]} : gmap string Value) !! key
            ≠ Some (VString "")) ∧
  safeParse Scenario.inputSchema (VObject {[ "name" := VNumber 123 ]})
    = SafeParseError [{| message := "Expected string, received number";
                         path := [PKey "name"] |}] ∧
  ZodSchemaValidatedService.execute
      (ZodSchemaValidatedService.new Scenario.inputSchema Scenario.outputSchema
         (spy Scenario.MockService))
      (VObject {[ "name" := VNumber 123 ]}) ((), [])
    = (Normal (SafeParseError
                 [{| message := "Expected string, received number";
                     path := [PKey "name"] |}]),
       ((), [])) ∧
  ZodSchemaValidatedAction.execute
      (ZodSchemaValidatedAction.new Scenario.inputSchema Scenario.outputSchema
         (spy Scenario.MockAction))
      (VObject {[ "name" := VNumber 123 ]}) ((), [])
    = (Normal {| success := false;
                 messages :=
                   Some (ZodSchemaValidatedAction.errorToMessage
                           <$> [{| message := "Expected string, received number";
                                   path := [PKey "name"] |}]);
                 data := None |},
       ((), [])).
Proof.
  assert (Hnone : ∀ key,
            declaresOptionalOrNullable [("name", MiniZod.ZodString)] key →
            ({[ "name" := VNumber 123 ]} : gmap string Value) !! key
              ≠ Some (VString "")).
  { intros key (f & Hin & Hopt). apply list_elem_of_singleton in Hin.
    injection Hin as -> ->. discriminate. }
  split; [reflexivity|]. split; [exact Hnone|].
  split; [vm_compute; reflexivity|].
  apply (action_and_service_reject_alike
           Scenario.inputSchema Scenario.outputSchema
           Scenario.MockAction Scenario.MockService
           {[ "name" := VNumber 123 ]} [("name", MiniZod.ZodString)]
           [{| message := "Expected string, received number";
               path := [PKey "name"] |}] () () [] []);
    [reflexivity|exact Hnone|vm_compute; reflexivity].
Defined.

(** X11.  A response built by [ResponseHelper.createErrorResponse] does
    not survive the Action wrapper when the output schema is an object
    schema: the response has no [data], the output validation of the
    absent value fails, and the caller receives the error response
    [createErrorResponse(VALIDATION_ERROR, 'Required (at )')] whatever code
    and message the unit gave. *)
Theorem action_replaces_error_response {St : Type}
    (payloadSchema : MiniZod.ZodType)
    (shape : list (string * MiniZod.ZodType))
    (unknownKeys : MiniZod.UnknownKeysParam) (action : ActionInterface St)
    (payload : Value) (cleaned : gmap string Value) (parsedPayload : Value)
    (code message : string) (s s' : St) (log : list Value) :
  OptionalFieldStripperHelper.stripEmptyStrings payload payloadSchema
    = Normal cleaned →
  safeParse payloadSchema (VObject cleaned) = SafeParseSuccess parsedPayload →
  execute action parsedPayload s
    = (Normal (ResponseHelper.createErrorResponse code message), s') →
  ZodSchemaValidatedAction.execute
      (ZodSchemaValidatedAction.new payloadSchema
         (MiniZod.ZodObject shape unknownKeys) (spy action))
      payload (s, log)
    = (Normal (ResponseHelper.createErrorResponse
                 VALIDATION_ERROR "Required (at )"),
       (s', log ++ [parsedPayload])).
Proof.
  intros Hstrip Hinput Hunit.
  apply (execute_spy_rejected_output _ _ _ _ _ _ _
           [{| message := "Required"; path := [] |}] _ _ _
           Hstrip Hinput Hunit).
  apply parse_object_undefined.
Qed.

Lemma action_replaces_error_response_witness :
  OptionalFieldStripperHelper.stripEmptyStrings
      Scenario.johnDoe Scenario.inputSchema
    = Normal {[ "name" := VString "John Doe" ]} ∧
  safeParse Scenario.inputSchema (VObject {[ "name" := VString "John Doe" ]})
    = SafeParseSuccess Scenario.johnDoe ∧
  execute Cases.NotFoundAction Scenario.johnDoe ()
    = (Normal (ResponseHelper.createErrorResponse "NOT_FOUND" "No such user"),
       ()) ∧
  ZodSchemaValidatedAction.execute
      (ZodSchemaValidatedAction.new Scenario.inputSchema
         (MiniZod.ZodObject [("id", MiniZod.ZodNumber)] MiniZod.passthrough)
         (spy Cases.NotFoundAction))
      Scenario.johnDoe ((), [])
    = (Normal (ResponseHelper.createErrorResponse
                 VALIDATION_ERROR "Required (at )"),
       ((), [] ++ [Scenario.johnDoe])).
Proof.
  repeat (split; [vm_compute; reflexivity|]).
  apply (action_replaces_error_response
           Scenario.inputSchema [("id", MiniZod.ZodNumber)] MiniZod.passthrough
           Cases.NotFoundAction Scenario.johnDoe
           {[ "name" := VString "John Doe" ]} Scenario.johnDoe
           "NOT_FOUND" "No such user" () () []);
    vm_compute; reflexivity.
Defined.

(** ** More on the Service convention *)

(** X12.  A rejection of the wrapped service propagates: when the service,
    invoked with the parsed payload, rejects with [e], [execute] rejects
    with the same [e] after that one invocation, and nothing is validated
    against the response schema. *)
Theorem service_unit_rejection_propagates
    {Schema : Type} `{ZodSchema Schema} {St : Type}
    (payloadSchema responseSchema : Schema)
    (service : ServiceInterface St Value Value)
    (payload parsedPayload : Value) (e : JsError)
    (s s' : St) (log : list Value) :
  safeParse payloadSchema payload = SafeParseSuccess parsedPayload →
  execute service parsedPayload s = (Throw e, s') →
  ZodSchemaValidatedService.execute
      (ZodSchemaValidatedService.new payloadSchema responseSchema (spy service))
      payload (s, log)
    = (Throw e, (s', log ++ [parsedPayload])).
Proof.
  intros Hinput Hunit.
  unfold ZodSchemaValidatedService.execute, bind, ret. simpl.
  by rewrite Hinput, Hunit.
Qed.

Lemma service_unit_rejection_propagates_witness :
  safeParse Scenario.inputSchema Scenario.johnDoe
    = SafeParseSuccess Scenario.johnDoe ∧
  execute Cases.RejectingService Scenario.johnDoe 0
    = (Throw (Rejection (VString "network down")), 1) ∧
  ZodSchemaValidatedService.execute
      (ZodSchemaValidatedService.new Scenario.inputSchema Scenario.outputSchema
         (spy Cases.RejectingService))
      Scenario.johnDoe (0, [])
    = (Throw (Rejection (VString "network down")), (1, [Scenario.johnDoe])).
Proof.
  repeat (split; [vm_compute; reflexivity|]).
  apply (service_unit_rejection_propagates
           Scenario.inputSchema Scenario.outputSchema Cases.RejectingService
           Scenario.johnDoe Scenario.johnDoe
           (Rejection (VString "network down")) 0 1 []);
    vm_compute; reflexivity.
Defined.

(** X13.  However a call of the Service-convention [execute] ends, by a
    result or by an exception, the wrapped service was either not invoked
    at all, and is in the state it was in, or invoked exactly once, with
    the value the input schema's validation of the payload yielded. *)
Theorem service_unit_sees_only_parsed_payloads
    {Schema : Type} `{ZodSchema Schema} {St : Type}
    (payloadSchema responseSchema : Schema)
    (service : ServiceInterface St Value Value)
    (payload : Value) (s s' : St) (log log' : list Value)
    (completion : Completion SafeParseReturnType) :
  ZodSchemaValidatedService.execute
      (ZodSchemaValidatedService.new payloadSchema responseSchema (spy service))
      payload (s, log)
    = (completion, (s', log')) →
  (log' = log ∧ s' = s) ∨
  (∃ parsedPayload,
     safeParse payloadSchema payload = SafeParseSuccess parsedPayload ∧
     log' = log ++ [parsedPayload]).
Proof.
  unfold ZodSchemaValidatedService.execute, bind, ret. simpl.
  destruct (safeParse payloadSchema payload) as [parsedPayload|errors] eqn:Hinput.
  - intros Hexec. right. exists parsedPayload. split; [done|].
    destruct (execute service parsedPayload s) as [[response|e] s''];
      by injection Hexec as _ _ <-.
  - intros [= _ <- <-]. by left.
Qed.

Lemma service_unit_sees_only_parsed_payloads_witness :
  ZodSchemaValidatedService.execute
      (ZodSchemaValidatedService.new Scenario.inputSchema Scenario.outputSchema
         (spy Cases.RejectingService))
      Scenario.johnDoe (0, [])
    = (Throw (Rejection (VString "network down")), (1, [Scenario.johnDoe])) ∧
  (([Scenario.johnDoe] = [] ∧ 1 = 0) ∨
   (∃ parsedPayload,
      safeParse Scenario.inputSchema Scenario.johnDoe
        = SafeParseSuccess parsedPayload ∧
      [Scenario.johnDoe] = [] ++ [parsedPayload])).
Proof.
  split; [vm_compute; reflexivity|].
  apply (service_unit_sees_only_parsed_payloads
           Scenario.inputSchema Scenario.outputSchema Cases.RejectingService
           Scenario.johnDoe 0 1 [] [Scenario.johnDoe]
           (Throw (Rejection (VString "network down")))).
  vm_compute; reflexivity.
Defined.

(** ** The other version of the Action wrapper *)

Section Earlier.
Context {Schema : Type} `{ZodSchema Schema}.
Context `{EarlierZodSchemaValidatedAction.ZodObjectMethods Schema}.
Context {St : Type}.

(** Whatever [data] a returned record has is a value that the stripped
    output schema's validation yielded. *)
Lemma earlier_execute_data_validated
    (this : EarlierZodSchemaValidatedAction.t Schema St)
    (payload : Value) (s after : St) (result : TypeResponse) (value : Value) :
  EarlierZodSchemaValidatedAction.execute this payload s
    = (Normal result, after) →
  data result = Some value →
  ∃ stripped input,
    EarlierZodSchemaValidatedAction.strip
        (EarlierZodSchemaValidatedAction.objectSchema this)
      = Some stripped ∧
    safeParse stripped input = SafeParseSuccess value.
Proof.
  unfold EarlierZodSchemaValidatedAction.execute,
    EarlierZodSchemaValidatedAction.callStrip, bind, lift, ret.
  destruct (safeParse (EarlierZodSchemaValidatedAction.payloadSchema this) _)
    as [parsedPayload|]; [|by intros [= <- _] [=]].
  destruct (execute _ parsedPayload s) as [[response|] s']; [|discriminate].
  destruct (EarlierZodSchemaValidatedAction.strip _) as [stripped|] eqn:Hstrip;
    [|discriminate].
  destruct (safeParse stripped _) as [validated|] eqn:Houtput;
    [|by intros [= <- _] [=]].
  intros [= <- _] [= <-]. by eexists _, _.
Qed.

End Earlier.

(** X14.  The other version validates the payload as it is given: for
    every payload that the input schema rejects it returns
    [{success: false, messages}] with one [VALIDATION_ERROR] message per
    issue, whose text is the bare issue message, and it does not invoke
    the wrapped unit. *)
Theorem earlier_input_rejected_as_given
    {Schema : Type} `{ZodSchema Schema}
    `{EarlierZodSchemaValidatedAction.ZodObjectMethods Schema} {St : Type}
    (payloadSchema objectSchema : Schema) (action : ActionInterface St)
    (payload : Value) (errors : list ZodIssue) (s : St) (log : list Value) :
  safeParse payloadSchema payload = SafeParseError errors →
  ∃ texts,
    EarlierZodSchemaValidatedAction.execute
        (EarlierZodSchemaValidatedAction.new payloadSchema objectSchema
           (spy action))
        payload (s, log)
      = (Normal {| success := false; messages := Some texts; data := None |},
         (s, log)) ∧
    Forall2 (λ m error, code m = VALIDATION_ERROR ∧ text m = message error)
            texts errors.
Proof.
  intros Hinput. eexists. split.
  - unfold EarlierZodSchemaValidatedAction.execute, ret. simpl.
    rewrite Hinput. reflexivity.
  - apply Forall2_fmap_l, Forall_Forall2_diag, Forall_true. done.
Qed.

Lemma earlier_input_rejected_as_given_witness :
  safeParse Scenario.optionalCountSchema Scenario.emptyCount
    = SafeParseError [{| message := "Expected number, received string";
                         path := [PKey "count"] |}] ∧
  ∃ texts,
    EarlierZodSchemaValidatedAction.execute
        (EarlierZodSchemaValidatedAction.new
           Scenario.optionalCountSchema Scenario.outputSchema
           (spy Scenario.MockAction))
        Scenario.emptyCount ((), [])
      = (Normal {| success := false; messages := Some texts; data := None |},
         ((), [])) ∧
    Forall2 (λ m error, code m = VALIDATION_ERROR ∧ text m = message error)
            texts
            [{| message := "Expected number, received string";
                path := [PKey "count"] |}].
Proof.
  split; [vm_compute; reflexivity|].
  apply (earlier_input_rejected_as_given
           Scenario.optionalCountSchema Scenario.outputSchema
           Scenario.MockAction Scenario.emptyCount).
  vm_compute; reflexivity.
Defined.

(** X15.  The other version forces strip mode: with any object schema as
    output schema, in passthrough mode too, whatever [data] it returns has
    declared fields only. *)
Theorem earlier_data_declared_only {St : Type}
    (payloadSchema : MiniZod.ZodType)
    (shape : list (string * MiniZod.ZodType))
    (unknownKeys : MiniZod.UnknownKeysParam) (action : ActionInterface St)
    (payload : Value) (s after : St) (result : TypeResponse) (value : Value) :
  EarlierZodSchemaValidatedAction.execute
      (EarlierZodSchemaValidatedAction.new payloadSchema
         (MiniZod.ZodObject shape unknownKeys) action)
      payload s
    = (Normal result, after) →
  data result = Some value →
  ∃ fields, value = VObject fields ∧
    ∀ key, is_Some (fields !! key) → key ∈ shape.*1.
Proof.
  intros Hexec Hdata.
  destruct (earlier_execute_data_validated _ _ _ _ _ _ Hexec Hdata)
    as (stripped & input & Hstrip & Houtput).
  injection Hstrip as <-.
  exact (parse_strip_declared shape [] input value Houtput).
Qed.

Lemma earlier_data_declared_only_witness :
  EarlierZodSchemaValidatedAction.execute
      (EarlierZodSchemaValidatedAction.new
         Scenario.inputSchema Scenario.passthroughOutputSchema
         Scenario.ExtraFieldsMockAction)
      Scenario.johnDoe ()
    = (Normal {| success := true;
                 messages := Some [];
                 data := Some (VObject {[ "id" := VNumber 1 ]}) |},
       ()) ∧
  data {| success := true;
          messages := Some [];
          data := Some (VObject {[ "id" := VNumber 1 ]}) |}
    = Some (VObject {[ "id" := VNumber 1 ]}) ∧
  ∃ fields, VObject {[ "id" := VNumber 1 ]} = VObject fields ∧
    ∀ key, is_Some (fields !! key) → key ∈ [("id", MiniZod.ZodNumber)].*1.
Proof.
  split; [vm_compute; reflexivity|]. split; [reflexivity|].
  apply (earlier_data_declared_only
           Scenario.inputSchema [("id", MiniZod.ZodNumber)] MiniZod.passthrough
           Scenario.ExtraFieldsMockAction Scenario.johnDoe () ()
           {| success := true;
              messages := Some [];
              data := Some (VObject {[ "id" := VNumber 1 ]}) |});
    [vm_compute; reflexivity|reflexivity].
Defined.

(** X16.  In the other version an output schema without a [strip] method,
    that is, any schema that is not an object schema, makes [execute]
    throw a [TypeError] after the wrapped unit has run: the unit was
    invoked and has changed its state, and its response is lost. *)
Theorem earlier_non_object_output_throws_after_call
    {Schema : Type} `{ZodSchema Schema}
    `{EarlierZodSchemaValidatedAction.ZodObjectMethods Schema} {St : Type}
    (payloadSchema objectSchema : Schema) (action : ActionInterface St)
    (payload parsedPayload : Value) (response : TypeResponse)
    (s s' : St) (log : list Value) :
  EarlierZodSchemaValidatedAction.strip objectSchema = None →
  safeParse payloadSchema payload = SafeParseSuccess parsedPayload →
  execute action parsedPayload s = (Normal response, s') →
  EarlierZodSchemaValidatedAction.execute
      (EarlierZodSchemaValidatedAction.new payloadSchema objectSchema
         (spy action))
      payload (s, log)
    = (Throw TypeError, (s', log ++ [parsedPayload])).
Proof.
  intros Hstrip Hinput Hunit.
  unfold EarlierZodSchemaValidatedAction.execute,
    EarlierZodSchemaValidatedAction.callStrip, bind, lift, ret. simpl.
  by rewrite Hinput, Hunit, Hstrip.
Qed.

Lemma earlier_non_object_output_throws_after_call_witness :
  EarlierZodSchemaValidatedAction.strip (MiniZod.ZodOptional Scenario.outputSchema)
    = None ∧
  safeParse Scenario.inputSchema Scenario.johnDoe
    = SafeParseSuccess Scenario.johnDoe ∧
  execute Scenario.MockAction Scenario.johnDoe ()
    = (Normal {| success := true;
                 data := Some (VObject {[ "id" := VNumber 1 ]});
                 messages := Some [] |},
       ()) ∧
  EarlierZodSchemaValidatedAction.execute
      (EarlierZodSchemaValidatedAction.new Scenario.inputSchema
         (MiniZod.ZodOptional Scenario.outputSchema)
         (spy Scenario.MockAction))
      Scenario.johnDoe ((), [])
    = (Throw TypeError, ((), [] ++ [Scenario.johnDoe])).
Proof.
  repeat (split; [vm_compute; reflexivity|]).
  apply (earlier_non_object_output_throws_after_call
           Scenario.inputSchema (MiniZod.ZodOptional Scenario.outputSchema)
           Scenario.MockAction Scenario.johnDoe Scenario.johnDoe
           {| success := true;
              data := Some (VObject {[ "id" := VNumber 1 ]});
              messages := Some [] |} () () []);
    vm_compute; reflexivity.
Defined.
